(** * Institutions management screen: model and properties

    Shallow embedding of [src/views/admin/InstitutionsManagement.tsx]:
    the in-memory record list, the filter and sort of the rendered view,
    the code uniqueness check, code regeneration and the add / edit /
    delete / fetch handlers.

    Conventions of the model:
    - a JavaScript string is a [string], one [ascii] per code unit.  The
      string built-ins are modelled on the Basic Latin range, where
      [toUpperCase] and [toLowerCase] map letters one to one and [trim]
      removes TAB, LF, VT, FF, CR and SPACE; other code units are left
      alone.  Wherever they can, the properties are stated through
      the built-ins (the value of [JS.trim s], of [JS.toLowerCase s])
      rather than through what the model makes them compute;
    - [localeCompare] depends on the host's collation tables: it is a
      parameter of the sorting functions;
    - a record field that may be absent at run time (the code guards it
      with [?.] or [|| ""]) is an [option string], [None] for [undefined];
    - arrays live in a heap of array cells, so that copying ([...xs]) and
      in-place sorting can be told apart;
    - a handler returns the next component state and the list of effects
      it performed (remote calls, console output, alerts), the answers of
      the document store being given by an oracle. *)

From Stdlib Require Import ZArith Ascii String.
From stdpp Require Import base option list strings gmap sorting.
From Stdlib Require Import Sorting.Sorted.

Local Open Scope string_scope.
Local Open Scope Z_scope.

(** ** JavaScript string built-ins *)

Module JS.

(** Code unit tests and maps on the Basic Latin range. *)
Definition isWhiteSpace (c : ascii) : bool :=
  let n := nat_of_ascii c in
  ((9 <=? n)%nat && (n <=? 13)%nat) || (n =? 32)%nat.

Definition upperUnit (c : ascii) : ascii :=
  let n := nat_of_ascii c in
  if ((97 <=? n)%nat && (n <=? 122)%nat) then ascii_of_nat (n - 32) else c.

Definition lowerUnit (c : ascii) : ascii :=
  let n := nat_of_ascii c in
  if ((65 <=? n)%nat && (n <=? 90)%nat) then ascii_of_nat (n + 32) else c.

Fixpoint mapUnits (f : ascii → ascii) (s : string) : string :=
  match s with
  | EmptyString => EmptyString
  | String c s' => String (f c) (mapUnits f s')
  end.

(** [s.toUpperCase()], [s.toLowerCase()] *)
Definition toUpperCase : string → string := mapUnits upperUnit.
Definition toLowerCase : string → string := mapUnits lowerUnit.

(** [s.trim()]: leading, then trailing white space removed. *)
Fixpoint trimStart (s : string) : string :=
  match s with
  | EmptyString => EmptyString
  | String c s' => if isWhiteSpace c then trimStart s' else s
  end.

Fixpoint trimEnd (s : string) : string :=
  match s with
  | EmptyString => EmptyString
  | String c s' =>
      match trimEnd s' with
      | EmptyString => if isWhiteSpace c then EmptyString else String c EmptyString
      | r => String c r
      end
  end.

Definition trim (s : string) : string := trimEnd (trimStart s).

(** [s.length] *)
Definition length (s : string) : nat := String.length s.

(** [s.startsWith(t)] and [s.includes(t)] *)
Fixpoint startsWith (s t : string) {struct t} : bool :=
  match t, s with
  | EmptyString, _ => true
  | String _ _, EmptyString => false
  | String b t', String a s' => if Ascii.eqb a b then startsWith s' t' else false
  end.

Fixpoint includes (s t : string) : bool :=
  startsWith s t ||
  match s with
  | EmptyString => false
  | String _ s' => includes s' t
  end.

(** Truthiness of a string: only the empty string is falsy. *)
Definition truthy (s : string) : bool :=
  match s with EmptyString => false | _ => true end.

(** [v || ""] for a possibly absent string. *)
Definition orEmpty (v : option string) : string := default EmptyString v.

(** [v?.f()] used as a condition: an absent receiver gives
    [undefined], which is falsy. *)
Definition optTest (v : option string) (f : string → bool) : bool :=
  match v with Some s => f s | None => false end.

(** A string only made of white space. *)
Fixpoint allWhiteSpace (s : string) : bool :=
  match s with
  | EmptyString => true
  | String c s' => isWhiteSpace c && allWhiteSpace s'
  end.

End JS.

(** ** Data model *)

(** [interface FacultyCodeWithId extends FacultyCode { id: string }] *)
Record FacultyCodeWithId := {
  id : string;
  institution : option string;
  facultyCode : option string;
}.

Global Instance FacultyCodeWithId_eq_dec : EqDecision FacultyCodeWithId.
Proof. solve_decision. Defined.

(** The object literal [{ institution, facultyCode }] sent to the store
    by add and update. *)
Record Doc := {
  doc_institution : string;
  doc_facultyCode : string;
}.

Global Instance Doc_eq_dec : EqDecision Doc.
Proof. solve_decision. Defined.

(** [{ ...doc, id: docId }] *)
Definition withId (d : Doc) (docId : string) : FacultyCodeWithId :=
  {| id := docId;
     institution := Some (doc_institution d);
     facultyCode := Some (doc_facultyCode d) |}.

(** [{ ...inst, ...updatedData }] *)
Definition patch (inst : FacultyCodeWithId) (d : Doc) : FacultyCodeWithId :=
  {| id := id inst;
     institution := Some (doc_institution d);
     facultyCode := Some (doc_facultyCode d) |}.

(** The form state [{ institution: "", facultyCode: "" }]. *)
Record FormData := {
  form_institution : string;
  form_facultyCode : string;
}.

(** ** Filter *)

Definition matchesSearch (searchLower : string) (inst : FacultyCodeWithId) : bool :=
  JS.optTest (institution inst) (λ s, JS.includes (JS.toLowerCase s) searchLower)
  || JS.optTest (facultyCode inst) (λ s, JS.includes (JS.toLowerCase s) searchLower).

Definition filterInstitutions (institutionsList : list FacultyCodeWithId)
    (search : string) : list FacultyCodeWithId :=
  if negb (JS.truthy (JS.trim search)) then institutionsList
  else
    let searchLower := JS.toLowerCase search in
    List.filter (matchesSearch searchLower) institutionsList.

(** ** Code uniqueness *)

(** [inst.id !== excludeId], [excludeId] being [undefined] when the
    argument is left out. *)
Definition idDiffers (instId : string) (excludeId : option string) : bool :=
  match excludeId with
  | None => true
  | Some e => negb (String.eqb instId e)
  end.

(** [inst.facultyCode === code] *)
Definition codeIs (inst : FacultyCodeWithId) (code : string) : bool :=
  match facultyCode inst with
  | Some c => String.eqb c code
  | None => false
  end.

Definition isCodeUnique (institutions : list FacultyCodeWithId)
    (code : string) (excludeId : option string) : bool :=
  negb (existsb (λ inst, codeIs inst code && idDiffers (id inst) excludeId)
          institutions).

(** ** Arrays and [Array.prototype.sort] *)

Section ArraySort.
Context {A : Type} (compareFn : A → A → Z).

(** With a consistent comparator, [sort] yields the stable sorted
    arrangement of the array: an element goes before the first one it
    does not compare greater than. *)
Fixpoint insertSorted (x : A) (l : list A) : list A :=
  match l with
  | [] => [x]
  | y :: l' => if compareFn x y <=? 0 then x :: l else y :: insertSorted x l'
  end.

Definition Array_sort (l : list A) : list A := foldr insertSorted [] l.
End ArraySort.

(** Array cells: an array value is a reference into the heap. *)
Abbreviation Heap := (gmap positive (list FacultyCodeWithId)).

(** [[...xs]]: a new cell with the same elements. *)
Definition spread (h : Heap) (xs : positive) : option (positive * Heap) :=
  l ← h !! xs;
  let r := fresh (dom h) in
  Some (r, <[r := l]> h).

(** [xs.sort(compareFn)]: sorts the cell in place and returns [xs]. *)
Definition sortInPlace (compareFn : FacultyCodeWithId → FacultyCodeWithId → Z)
    (h : Heap) (xs : positive) : positive * Heap :=
  (xs, alter (Array_sort compareFn) xs h).

(** ** Sort *)

Section Sort.
Variable localeCompare : string → string → Z.

Definition byInstitution (a b : FacultyCodeWithId) : Z :=
  localeCompare (JS.orEmpty (institution a)) (JS.orEmpty (institution b)).

Definition byFacultyCode (a b : FacultyCodeWithId) : Z :=
  localeCompare (JS.orEmpty (facultyCode a)) (JS.orEmpty (facultyCode b)).

(** The comparator of each [case] of the [switch]; [None] is the
    [default] branch. *)
Definition comparatorOf (sortOption : string)
    : option (FacultyCodeWithId → FacultyCodeWithId → Z) :=
  if String.eqb sortOption "alphabetical" then
    Some (λ a b, byInstitution a b)
  else if String.eqb sortOption "reverse-alphabetical" then
    Some (λ a b, byInstitution b a)
  else if String.eqb sortOption "code-asc" then
    Some (λ a b, byFacultyCode a b)
  else if String.eqb sortOption "code-desc" then
    Some (λ a b, byFacultyCode b a)
  else None.

(** [sortInstitutions] on array references. *)
Definition sortInstitutions_ref (h : Heap) (institutionsList : positive)
    (sortOption : string) : option (positive * Heap) :=
  '(sorted, h1) ← spread h institutionsList;
  match comparatorOf sortOption with
  | Some compareFn => Some (sortInPlace compareFn h1 sorted)
  | None => Some (sorted, h1)
  end.

(** [sortInstitutions] on array contents. *)
Definition sortInstitutions (institutionsList : list FacultyCodeWithId)
    (sortOption : string) : list FacultyCodeWithId :=
  let sorted := institutionsList in
  match comparatorOf sortOption with
  | Some compareFn => Array_sort compareFn sorted
  | None => sorted
  end.
End Sort.

(** ** Component state *)

Record State := {
  institutions : list FacultyCodeWithId;
  filteredInstitutions : list FacultyCodeWithId;
  isLoading : bool;
  sortOption : string;
  searchTerm : string;
  showAddModal : bool;
  showEditModal : bool;
  showDeleteModal : bool;
  selectedInstitution : option FacultyCodeWithId;
  formData : FormData;
  isSaving : bool;
  isDeleting : bool;
  formError : string;
}.

Definition setInstitutions (v : list FacultyCodeWithId) (st : State) : State :=
  {| institutions := v; filteredInstitutions := filteredInstitutions st;
     isLoading := isLoading st; sortOption := sortOption st;
     searchTerm := searchTerm st; showAddModal := showAddModal st;
     showEditModal := showEditModal st; showDeleteModal := showDeleteModal st;
     selectedInstitution := selectedInstitution st; formData := formData st;
     isSaving := isSaving st; isDeleting := isDeleting st;
     formError := formError st |}.

Definition setFilteredInstitutions (v : list FacultyCodeWithId) (st : State) : State :=
  {| institutions := institutions st; filteredInstitutions := v;
     isLoading := isLoading st; sortOption := sortOption st;
     searchTerm := searchTerm st; showAddModal := showAddModal st;
     showEditModal := showEditModal st; showDeleteModal := showDeleteModal st;
     selectedInstitution := selectedInstitution st; formData := formData st;
     isSaving := isSaving st; isDeleting := isDeleting st;
     formError := formError st |}.

Definition setIsLoading (v : bool) (st : State) : State :=
  {| institutions := institutions st; filteredInstitutions := filteredInstitutions st;
     isLoading := v; sortOption := sortOption st;
     searchTerm := searchTerm st; showAddModal := showAddModal st;
     showEditModal := showEditModal st; showDeleteModal := showDeleteModal st;
     selectedInstitution := selectedInstitution st; formData := formData st;
     isSaving := isSaving st; isDeleting := isDeleting st;
     formError := formError st |}.

Definition setShowAddModal (v : bool) (st : State) : State :=
  {| institutions := institutions st; filteredInstitutions := filteredInstitutions st;
     isLoading := isLoading st; sortOption := sortOption st;
     searchTerm := searchTerm st; showAddModal := v;
     showEditModal := showEditModal st; showDeleteModal := showDeleteModal st;
     selectedInstitution := selectedInstitution st; formData := formData st;
     isSaving := isSaving st; isDeleting := isDeleting st;
     formError := formError st |}.

Definition setShowEditModal (v : bool) (st : State) : State :=
  {| institutions := institutions st; filteredInstitutions := filteredInstitutions st;
     isLoading := isLoading st; sortOption := sortOption st;
     searchTerm := searchTerm st; showAddModal := showAddModal st;
     showEditModal := v; showDeleteModal := showDeleteModal st;
     selectedInstitution := selectedInstitution st; formData := formData st;
     isSaving := isSaving st; isDeleting := isDeleting st;
     formError := formError st |}.

Definition setShowDeleteModal (v : bool) (st : State) : State :=
  {| institutions := institutions st; filteredInstitutions := filteredInstitutions st;
     isLoading := isLoading st; sortOption := sortOption st;
     searchTerm := searchTerm st; showAddModal := showAddModal st;
     showEditModal := showEditModal st; showDeleteModal := v;
     selectedInstitution := selectedInstitution st; formData := formData st;
     isSaving := isSaving st; isDeleting := isDeleting st;
     formError := formError st |}.

Definition setSelectedInstitution (v : option FacultyCodeWithId) (st : State) : State :=
  {| institutions := institutions st; filteredInstitutions := filteredInstitutions st;
     isLoading := isLoading st; sortOption := sortOption st;
     searchTerm := searchTerm st; showAddModal := showAddModal st;
     showEditModal := showEditModal st; showDeleteModal := showDeleteModal st;
     selectedInstitution := v; formData := formData st;
     isSaving := isSaving st; isDeleting := isDeleting st;
     formError := formError st |}.

Definition setFormData (v : FormData) (st : State) : State :=
  {| institutions := institutions st; filteredInstitutions := filteredInstitutions st;
     isLoading := isLoading st; sortOption := sortOption st;
     searchTerm := searchTerm st; showAddModal := showAddModal st;
     showEditModal := showEditModal st; showDeleteModal := showDeleteModal st;
     selectedInstitution := selectedInstitution st; formData := v;
     isSaving := isSaving st; isDeleting := isDeleting st;
     formError := formError st |}.

Definition setIsSaving (v : bool) (st : State) : State :=
  {| institutions := institutions st; filteredInstitutions := filteredInstitutions st;
     isLoading := isLoading st; sortOption := sortOption st;
     searchTerm := searchTerm st; showAddModal := showAddModal st;
     showEditModal := showEditModal st; showDeleteModal := showDeleteModal st;
     selectedInstitution := selectedInstitution st; formData := formData st;
     isSaving := v; isDeleting := isDeleting st;
     formError := formError st |}.

Definition setIsDeleting (v : bool) (st : State) : State :=
  {| institutions := institutions st; filteredInstitutions := filteredInstitutions st;
     isLoading := isLoading st; sortOption := sortOption st;
     searchTerm := searchTerm st; showAddModal := showAddModal st;
     showEditModal := showEditModal st; showDeleteModal := showDeleteModal st;
     selectedInstitution := selectedInstitution st; formData := formData st;
     isSaving := isSaving st; isDeleting := v;
     formError := formError st |}.

Definition setFormError (v : string) (st : State) : State :=
  {| institutions := institutions st; filteredInstitutions := filteredInstitutions st;
     isLoading := isLoading st; sortOption := sortOption st;
     searchTerm := searchTerm st; showAddModal := showAddModal st;
     showEditModal := showEditModal st; showDeleteModal := showDeleteModal st;
     selectedInstitution := selectedInstitution st; formData := formData st;
     isSaving := isSaving st; isDeleting := isDeleting st;
     formError := v |}.

(** The state of the first render. *)
Definition initialState : State :=
  {| institutions := []; filteredInstitutions := [];
     isLoading := true; sortOption := "alphabetical"; searchTerm := "";
     showAddModal := false; showEditModal := false; showDeleteModal := false;
     selectedInstitution := None;
     formData := {| form_institution := ""; form_facultyCode := "" |};
     isSaving := false; isDeleting := false; formError := "" |}.

(** ** Effects and the document store *)

(** What a console call reports; the interpolated value is kept, the
    fixed text is not. *)
Inductive ConsoleMsg :=
| Loaded (count : nat)
| Created (docId : string)
| Updated (name : option string)
| Deleted (name : option string)
| FetchFailed
| CreateFailed
| UpdateFailed
| DeleteFailed.

Inductive Effect :=
| GetAll (collection : string)
| Add (collection : string) (doc : Doc)
| Update (collection : string) (docId : string) (doc : Doc)
| Delete (collection : string) (docId : string)
| ConsoleLog (msg : ConsoleMsg)
| ConsoleError (msg : ConsoleMsg)
| Alert (msg : string).

Global Instance ConsoleMsg_eq_dec : EqDecision ConsoleMsg.
Proof. solve_decision. Defined.

Global Instance Effect_eq_dec : EqDecision Effect.
Proof. solve_decision. Defined.

(** Answers of [FirestoreService]: [None] (or [false]) when the awaited
    call rejects. *)
Record Firestore := {
  fs_getAll : string → option (list FacultyCodeWithId);
  fs_add : string → Doc → option string;
  fs_update : string → string → Doc → bool;
  fs_delete : string → string → bool;
}.

Definition isRemoteWrite (e : Effect) : bool :=
  match e with
  | Add _ _ | Update _ _ _ | Delete _ _ => true
  | _ => false
  end.

(** Messages shown in the form's error area and in the alert. *)
Definition msgNameRequired : string := "El nombre de la institución es requerido".
Definition msgCodeLength : string := "El código debe tener exactamente 6 caracteres".
Definition msgCodeInUse : string := "Este código ya está en uso".
Definition msgCreateFailed : string :=
  "Error al crear la institución. Por favor intenta de nuevo.".
Definition msgUpdateFailed : string :=
  "Error al actualizar la institución. Por favor intenta de nuevo.".
Definition msgDeleteFailed : string :=
  "Error al eliminar la institución. Por favor intenta de nuevo.".

(** ** Handlers *)

Definition collection : string := "facultyCodes".

Definition emptyForm : FormData :=
  {| form_institution := ""; form_facultyCode := "" |}.

(** [fetchInstitutions] *)
Definition fetchInstitutions (fs : Firestore) (st : State) : State * list Effect :=
  let st := setIsLoading true st in
  match fs_getAll fs collection with
  | Some data =>
      let st := setInstitutions data st in
      (setIsLoading false st,
       [GetAll collection; ConsoleLog (Loaded (List.length data))])
  | None =>
      let st := setInstitutions [] st in
      (setIsLoading false st,
       [GetAll collection; ConsoleError FetchFailed])
  end.

(** The effect that recomputes the rendered list whenever
    [institutions], [sortOption] or [searchTerm] change. *)
Definition refreshView (localeCompare : string → string → Z) (st : State) : State :=
  let filtered := filterInstitutions (institutions st) (searchTerm st) in
  let sorted := sortInstitutions localeCompare filtered (sortOption st) in
  setFilteredInstitutions sorted st.

(** [handleGenerateNewCode].  The external generator is the sequence
    [gen] of the codes it returns, call after call; [n] counts the calls
    made so far.  The [while] loop is unbounded: [fuel] bounds the number
    of regenerations, [None] meaning that the loop is still running. *)
Fixpoint regenerate (fuel : nat) (gen : nat → string)
    (institutions : list FacultyCodeWithId) (n : nat) (newCode : string)
    : option (string * nat) :=
  if isCodeUnique institutions newCode None then Some (newCode, n)
  else
    match fuel with
    | O => None
    | S fuel' => regenerate fuel' gen institutions (S n) (gen n)
    end.

Definition handleGenerateNewCode (fuel : nat) (gen : nat → string) (n : nat)
    (st : State) : option (State * nat) :=
  let newCode := gen n in
  '(newCode, n') ← regenerate fuel gen (institutions st) (S n) newCode;
  Some (setFormData {| form_institution := form_institution (formData st);
                       form_facultyCode := newCode |} st, n').

(** [handleAddInstitution] *)
Definition handleAddInstitution (fs : Firestore) (st : State) : State * list Effect :=
  let form := formData st in
  if negb (JS.truthy (JS.trim (form_institution form))) then
    (setFormError msgNameRequired st, [])
  else if negb (JS.truthy (JS.trim (form_facultyCode form)))
          || negb (JS.length (form_facultyCode form) =? 6)%nat then
    (setFormError msgCodeLength st, [])
  else if negb (isCodeUnique (institutions st) (form_facultyCode form) None) then
    (setFormError msgCodeInUse st, [])
  else
    let st := setIsSaving true st in
    let st := setFormError "" st in
    let newInstitution :=
      {| doc_institution := JS.trim (form_institution form);
         doc_facultyCode := JS.toUpperCase (form_facultyCode form) |} in
    match fs_add fs collection newInstitution with
    | Some docId =>
        let st := setInstitutions (institutions st ++ [withId newInstitution docId]) st in
        let st := setShowAddModal false st in
        let st := setFormData emptyForm st in
        (setIsSaving false st,
         [Add collection newInstitution; ConsoleLog (Created docId)])
    | None =>
        let st := setFormError msgCreateFailed st in
        (setIsSaving false st,
         [Add collection newInstitution; ConsoleError CreateFailed])
    end.

(** [openEditModal] is not modelled as a function: it copies the chosen
    record and its two fields into [selectedInstitution] and [formData]. *)

(** [handleEditInstitution] *)
Definition handleEditInstitution (fs : Firestore) (st : State) : State * list Effect :=
  match selectedInstitution st with
  | None => (st, [])
  | Some selected =>
      let form := formData st in
      if negb (JS.truthy (JS.trim (form_institution form))) then
        (setFormError msgNameRequired st, [])
      else if negb (JS.truthy (JS.trim (form_facultyCode form)))
              || negb (JS.length (form_facultyCode form) =? 6)%nat then
        (setFormError msgCodeLength st, [])
      else if negb (isCodeUnique (institutions st) (form_facultyCode form)
                      (Some (id selected))) then
        (setFormError msgCodeInUse st, [])
      else
        let st := setIsSaving true st in
        let st := setFormError "" st in
        let updatedData :=
          {| doc_institution := JS.trim (form_institution form);
             doc_facultyCode := JS.toUpperCase (form_facultyCode form) |} in
        if fs_update fs collection (id selected) updatedData then
          let st :=
            setInstitutions
              (List.map (λ inst, if String.eqb (id inst) (id selected)
                                 then patch inst updatedData else inst)
                 (institutions st)) st in
          let st := setShowEditModal false st in
          let st := setSelectedInstitution None st in
          let st := setFormData emptyForm st in
          (setIsSaving false st,
           [Update collection (id selected) updatedData;
            ConsoleLog (Updated (institution selected))])
        else
          let st := setFormError msgUpdateFailed st in
          (setIsSaving false st,
           [Update collection (id selected) updatedData;
            ConsoleError UpdateFailed])
  end.

(** [handleDeleteInstitution] *)
Definition handleDeleteInstitution (fs : Firestore) (st : State) : State * list Effect :=
  match selectedInstitution st with
  | None => (st, [])
  | Some selected =>
      let st := setIsDeleting true st in
      if fs_delete fs collection (id selected) then
        let st :=
          setInstitutions
            (List.filter (λ inst, negb (String.eqb (id inst) (id selected)))
               (institutions st)) st in
        let st := setShowDeleteModal false st in
        let st := setSelectedInstitution None st in
        (setIsDeleting false st,
         [Delete collection (id selected);
          ConsoleLog (Deleted (institution selected))])
      else
        (setIsDeleting false st,
         [Delete collection (id selected); ConsoleError DeleteFailed;
          Alert msgDeleteFailed])
  end.

(** [openEditModal].  The form fields are strings: the modal is opened
    on a record that has both fields ([None] otherwise, the form would
    hold [undefined]). *)
Definition openEditModal (inst : FacultyCodeWithId) (st : State) : option State :=
  name ← institution inst;
  code ← facultyCode inst;
  let st := setSelectedInstitution (Some inst) st in
  let st := setFormData {| form_institution := name; form_facultyCode := code |} st in
  let st := setFormError "" st in
  Some (setShowEditModal true st).

(** [openDeleteModal] *)
Definition openDeleteModal (inst : FacultyCodeWithId) (st : State) : State :=
  let st := setSelectedInstitution (Some inst) st in
  setShowDeleteModal true st.

(** [openAddModal]: the form starts from a generated code, which is not
    checked against the list here. *)
Definition openAddModal (gen : nat → string) (n : nat) (st : State) : State * nat :=
  let newCode := gen n in
  let st := setFormData {| form_institution := ""; form_facultyCode := newCode |} st in
  let st := setFormError "" st in
  (setShowAddModal true st, S n).

(** [handleSortChange] *)
Definition setSortOption (v : string) (st : State) : State :=
  {| institutions := institutions st; filteredInstitutions := filteredInstitutions st;
     isLoading := isLoading st; sortOption := v;
     searchTerm := searchTerm st; showAddModal := showAddModal st;
     showEditModal := showEditModal st; showDeleteModal := showDeleteModal st;
     selectedInstitution := selectedInstitution st; formData := formData st;
     isSaving := isSaving st; isDeleting := isDeleting st;
     formError := formError st |}.

Definition handleSortChange (sortOpt : string) (st : State) : State :=
  setSortOption sortOpt st.

(** The [onChange] of the search box: [setSearchTerm(e.target.value)]. *)
Definition setSearchTerm (v : string) (st : State) : State :=
  {| institutions := institutions st; filteredInstitutions := filteredInstitutions st;
     isLoading := isLoading st; sortOption := sortOption st;
     searchTerm := v; showAddModal := showAddModal st;
     showEditModal := showEditModal st; showDeleteModal := showDeleteModal st;
     selectedInstitution := selectedInstitution st; formData := formData st;
     isSaving := isSaving st; isDeleting := isDeleting st;
     formError := formError st |}.

(** The [onChange] of the name input of both modals:
    [setFormData({ ...formData, institution: e.target.value })]. *)
Definition onInstitutionInput (value : string) (st : State) : State :=
  setFormData {| form_institution := value;
                 form_facultyCode := form_facultyCode (formData st) |} st.

(** The [onChange] of the code input of both modals:
    [setFormData({ ...formData, facultyCode: e.target.value.toUpperCase() })]. *)
Definition onFacultyCodeInput (value : string) (st : State) : State :=
  setFormData {| form_institution := form_institution (formData st);
                 form_facultyCode := JS.toUpperCase value |} st.

(** ** Render *)

Definition msgNoMatch : string :=
  "No se encontraron instituciones con ese término de búsqueda".
Definition msgNoRecords : string := "No hay instituciones registradas".

(** What the screen shows below the header: the loader, the table of
    [filteredInstitutions], or the message of the empty table. *)
Inductive Body :=
| ShowLoader
| ShowTable (rows : list FacultyCodeWithId)
| ShowEmpty (msg : string).

Definition renderBody (st : State) : Body :=
  if isLoading st then ShowLoader
  else if (0 <? List.length (filteredInstitutions st))%nat then
    ShowTable (filteredInstitutions st)
  else
    ShowEmpty (if JS.truthy (JS.trim (searchTerm st)) then msgNoMatch
               else msgNoRecords).

(** The count of the header and of the statistics card:
    [institutions.length]. *)
Definition shownTotal (st : State) : nat := List.length (institutions st).

(** The edit and delete modals: [showEditModal && selectedInstitution],
    [showDeleteModal && selectedInstitution]. *)
Definition showsEditModal (st : State) : bool :=
  showEditModal st && bool_decide (is_Some (selectedInstitution st)).

Definition showsDeleteModal (st : State) : bool :=
  showDeleteModal st && bool_decide (is_Some (selectedInstitution st)).

(** * Vocabulary of the properties *)

(** A field contains the search string up to letter case: some
    substring of the field equals it once both are put in lower case. *)
Definition equalIgnoringCase (a b : string) : Prop :=
  JS.toLowerCase a = JS.toLowerCase b.

Definition containsIgnoringCase (field search : string) : Prop :=
  ∃ pre mid post, field = pre +:+ mid +:+ post ∧ equalIgnoringCase mid search.

(** The record has a name or a code that contains the search string. *)
Definition recordMatches (search : string) (inst : FacultyCodeWithId) : Prop :=
  (∃ name, institution inst = Some name ∧ containsIgnoringCase name search)
  ∨ (∃ code, facultyCode inst = Some code ∧ containsIgnoringCase code search).

(** [t] occurs in [s] as a contiguous run of code units. *)
Definition isSubstringOf (t s : string) : Prop :=
  ∃ pre post, s = pre +:+ t +:+ post.

(** The match the filter makes: the record has a name or a code whose
    lower-case form, as [toLowerCase] gives it, contains the lower-case
    form of the search string. *)
Definition matchesLowerCased (search : string) (inst : FacultyCodeWithId) : Prop :=
  (∃ name, institution inst = Some name
           ∧ isSubstringOf (JS.toLowerCase search) (JS.toLowerCase name))
  ∨ (∃ code, facultyCode inst = Some code
             ∧ isSubstringOf (JS.toLowerCase search) (JS.toLowerCase code)).

(** A comparator is consistent when no two elements are each greater
    than the other and "not greater" is transitive.  ECMAScript asks it
    of the function given to [sort], and of [localeCompare]. *)
Definition consistent {A : Type} (compareFn : A → A → Z) : Prop :=
  (∀ a b, 0 < compareFn a b → compareFn b a ≤ 0)
  ∧ (∀ a b c, compareFn a b ≤ 0 → compareFn b c ≤ 0 → compareFn a c ≤ 0).

(** The four sort options of the screen. *)
Inductive SortOption := alphabetical | reverse_alphabetical | code_asc | code_desc.

(** The string each option is at run time. *)
Definition optionName (o : SortOption) : string :=
  match o with
  | alphabetical => "alphabetical"
  | reverse_alphabetical => "reverse-alphabetical"
  | code_asc => "code-asc"
  | code_desc => "code-desc"
  end.

(** The field an option sorts on, a missing value read as [""]. *)
Definition sortKey (o : SortOption) (inst : FacultyCodeWithId) : string :=
  match o with
  | alphabetical | reverse_alphabetical => default "" (institution inst)
  | code_asc | code_desc => default "" (facultyCode inst)
  end.

Definition descending (o : SortOption) : bool :=
  match o with
  | alphabetical | code_asc => false
  | reverse_alphabetical | code_desc => true
  end.

(** [a] may stand before [b] under option [o]: ascending, the key of [a]
    does not compare greater than the key of [b]; descending, the same
    with the arguments swapped. *)
Definition inOrder (localeCompare : string → string → Z) (o : SortOption)
    (a b : FacultyCodeWithId) : Prop :=
  if descending o then localeCompare (sortKey o b) (sortKey o a) ≤ 0
  else localeCompare (sortKey o a) (sortKey o b) ≤ 0.

(** The three validation steps shared by add and edit pass. *)
Definition namePresent (form : FormData) : Prop :=
  JS.truthy (JS.trim (form_institution form)) = true.

Definition codeWellFormed (form : FormData) : Prop :=
  JS.truthy (JS.trim (form_facultyCode form)) = true
  ∧ JS.length (form_facultyCode form) = 6%nat.

(** No two records of the list share a code. *)
Definition uniqueCodes (l : list FacultyCodeWithId) : Prop :=
  NoDup (facultyCode <$> l).

(** No two records of the list share an id. *)
Definition uniqueIds (l : list FacultyCodeWithId) : Prop :=
  NoDup (id <$> l).

(** Two elements tie when neither compares greater than the other. *)
Definition tied {A : Type} (compareFn : A → A → Z) (x y : A) : bool :=
  (compareFn x y <=? 0) && (compareFn y x <=? 0).

(** The three checks of add and edit, as one test: the name is not
    blank, the code is not blank and has 6 code units, and no record other
    than the excluded one holds the code as it stands in the form. *)
Definition formValid (st : State) (excludeId : option string) : bool :=
  JS.truthy (JS.trim (form_institution (formData st)))
  && (JS.truthy (JS.trim (form_facultyCode (formData st)))
      && (JS.length (form_facultyCode (formData st)) =? 6)%nat)
  && isCodeUnique (institutions st) (form_facultyCode (formData st)) excludeId.

(** The document that add and edit send for the form of a state. *)
Definition docOfForm (st : State) : Doc :=
  {| doc_institution := JS.trim (form_institution (formData st));
     doc_facultyCode := JS.toUpperCase (form_facultyCode (formData st)) |}.

(** The messages a rejected form can get. *)
Definition validationMessages : list string :=
  [msgNameRequired; msgCodeLength; msgCodeInUse].

(** * Example data *)

(** A record of the running examples. *)
Definition rioclaro : FacultyCodeWithId :=
  {| id := "doc1"; institution := Some "Colegio Rioclaro";
     facultyCode := Some "ABC123" |}.

Definition colegio : FacultyCodeWithId :=
  {| id := "doc0"; institution := Some "Colegio"; facultyCode := Some "XY12AB" |}.

(** A concrete collation for the examples: code unit order. *)
Definition codeUnitCompare (s t : string) : Z :=
  match String.compare s t with
  | Lt => -1
  | Eq => 0
  | Gt => 1
  end.

Definition liceo : FacultyCodeWithId :=
  {| id := "doc2"; institution := Some "Liceo Andino"; facultyCode := Some "QRS789" |}.

Definition unnamed : FacultyCodeWithId :=
  {| id := "doc3"; institution := None; facultyCode := Some "ZZZ000" |}.

(** The form of the examples, the store that accepts every write and
    names the new document [docId], and a state over a record list. *)
Definition formOf (name code : string) : FormData :=
  {| form_institution := name; form_facultyCode := code |}.

Definition acceptingStore (docId : string) : Firestore :=
  {| fs_getAll := λ _, None;
     fs_add := λ _ _, Some docId;
     fs_update := λ _ _ _, true;
     fs_delete := λ _ _, true |}.

Definition stateOf (l : list FacultyCodeWithId) (form : FormData) : State :=
  setFormData form (setInstitutions l (setIsLoading false initialState)).

(** The same, with the edit modal open on [selected]. *)
Definition stateOf' (l : list FacultyCodeWithId) (selected : FacultyCodeWithId)
    (form : FormData) : State :=
  setShowEditModal true (setSelectedInstitution (Some selected) (stateOf l form)).

(** A generator that first returns a code in use, then fresh ones. *)
Definition collidingGen (i : nat) : string :=
  match i with O => "XY12AB" | _ => "NEW001" end.

Definition failingStore : Firestore :=
  {| fs_getAll := λ _, None;
     fs_add := λ _ _, None;
     fs_update := λ _ _ _, false;
     fs_delete := λ _ _, false |}.

(** A second record that holds the code of [rioclaro]. *)
Definition twin : FacultyCodeWithId :=
  {| id := "doc9"; institution := Some "Colegio Gemelo"; facultyCode := Some "ABC123" |}.

(** A record stored with a lower-case code. *)
Definition sur : FacultyCodeWithId :=
  {| id := "doc5"; institution := Some "Colegio Sur"; facultyCode := Some "abc123" |}.

(** A second record named as [rioclaro]. *)
Definition rioclaroB : FacultyCodeWithId :=
  {| id := "doc4"; institution := Some "Colegio Rioclaro"; facultyCode := Some "BBB222" |}.

(** * Properties *)

(** ** Strings *)

Lemma append_cons (a : ascii) (s t : string) :
  String a s +:+ t = String a (s +:+ t).
Proof. reflexivity. Qed.

Lemma append_empty (t : string) : "" +:+ t = t.
Proof. reflexivity. Qed.

Lemma startsWith_spec (s t : string) :
  JS.startsWith s t = true ↔ ∃ post, s = t +:+ post.
Proof.
  revert s. induction t as [|b t IH]; intros s; simpl.
  - split; [intros _; by exists s | done].
  - setoid_rewrite append_cons. destruct s as [|a s].
    + split; [done | intros [post Hp]; discriminate].
    + destruct (Ascii.eqb_spec a b) as [->|Hne].
      * rewrite IH. split; intros [post Hp]; exists post; congruence.
      * split; [done | intros [post Hp]; congruence].
Qed.

Lemma includes_spec (s t : string) :
  JS.includes s t = true ↔ ∃ pre post, s = pre +:+ t +:+ post.
Proof.
  induction s as [|a s IH]; simpl.
  - rewrite orb_false_r, startsWith_spec. split.
    + intros [post Hp]. by exists "", post.
    + intros [pre [post Hp]]. destruct pre; [by exists post | discriminate].
  - rewrite orb_true_iff, startsWith_spec, IH. split.
    + intros [[post Hp] | [pre [post Hp]]].
      * by exists "", post.
      * exists (String a pre), post. by rewrite append_cons, Hp.
    + intros [pre [post Hp]]. destruct pre as [|c pre].
      * left. by exists post.
      * right. exists pre, post. rewrite append_cons in Hp. congruence.
Qed.

Lemma mapUnits_app (f : ascii → ascii) (s t : string) :
  JS.mapUnits f (s +:+ t) = JS.mapUnits f s +:+ JS.mapUnits f t.
Proof.
  induction s as [|a s IH]; [done|].
  rewrite append_cons. simpl. by rewrite IH.
Qed.

Lemma mapUnits_app_inv (f : ascii → ascii) (s a b : string) :
  JS.mapUnits f s = a +:+ b →
  ∃ s1 s2, s = s1 +:+ s2 ∧ JS.mapUnits f s1 = a ∧ JS.mapUnits f s2 = b.
Proof.
  revert s. induction a as [|c a IH]; intros s Hs.
  - by exists "", s.
  - rewrite append_cons in Hs. destruct s as [|d s]; simpl in Hs; [discriminate|].
    injection Hs as Hc Hs. destruct (IH _ Hs) as (s1 & s2 & -> & H1 & H2).
    exists (String d s1), s2. simpl. by rewrite Hc, H1.
Qed.

Lemma trim_truthy (s : string) :
  JS.truthy (JS.trim s) = negb (JS.allWhiteSpace s).
Proof.
  unfold JS.trim. induction s as [|c s IH]; simpl; [done|].
  destruct (JS.isWhiteSpace c) eqn:Hc; simpl; [done|].
  destruct (JS.trimEnd s); by rewrite ?Hc.
Qed.

(** ** Filter *)

Lemma containsIgnoringCase_includes (field search : string) :
  containsIgnoringCase field search ↔
  JS.includes (JS.toLowerCase field) (JS.toLowerCase search) = true.
Proof.
  rewrite includes_spec. unfold containsIgnoringCase, equalIgnoringCase. split.
  - intros (pre & mid & post & -> & Hmid).
    exists (JS.toLowerCase pre), (JS.toLowerCase post).
    unfold JS.toLowerCase in *. by rewrite !mapUnits_app, Hmid.
  - intros (pre & post & Hf). unfold JS.toLowerCase in Hf.
    apply mapUnits_app_inv in Hf as (s1 & s23 & -> & H1 & H23).
    apply mapUnits_app_inv in H23 as (s2 & s3 & -> & H2 & H3).
    by exists s1, s2, s3.
Qed.

Lemma recordMatches_matchesSearch (search : string) (inst : FacultyCodeWithId) :
  recordMatches search inst ↔ matchesSearch (JS.toLowerCase search) inst = true.
Proof.
  unfold recordMatches, matchesSearch. rewrite orb_true_iff.
  apply Morphisms_Prop.or_iff_morphism.
  - destruct (institution inst) as [name|]; simpl.
    + rewrite <- containsIgnoringCase_includes. split; [|by eauto].
      by intros (s & [= <-] & Hc).
    + split; [by intros (s & [=] & _) | done].
  - destruct (facultyCode inst) as [code|]; simpl.
    + rewrite <- containsIgnoringCase_includes. split; [|by eauto].
      by intros (s & [= <-] & Hc).
    + split; [by intros (s & [=] & _) | done].
Qed.

Global Instance recordMatches_dec (search : string) (inst : FacultyCodeWithId) :
  Decision (recordMatches search inst).
Proof.
  refine (cast_if (decide (matchesSearch (JS.toLowerCase search) inst = true)));
    abstract (by rewrite recordMatches_matchesSearch).
Defined.

Lemma filter_decide {A} (f : A → bool) (P : A → Prop) `{∀ x, Decision (P x)}
    (l : list A) :
  (∀ x, P x ↔ f x = true) → List.filter f l = filter P l.
Proof.
  intros Hf. induction l as [|x l IH]; simpl; [done|].
  rewrite filter_cons. destruct (f x) eqn:Hx; case_decide as HP; try by rewrite IH.
  - exfalso. by apply HP, Hf.
  - apply Hf in HP. congruence.
Qed.

Lemma matchesLowerCased_matchesSearch (search : string) (inst : FacultyCodeWithId) :
  matchesLowerCased search inst ↔ matchesSearch (JS.toLowerCase search) inst = true.
Proof.
  unfold matchesLowerCased, isSubstringOf, matchesSearch, JS.optTest.
  rewrite orb_true_iff. apply Morphisms_Prop.or_iff_morphism.
  - destruct (institution inst) as [name|].
    + rewrite includes_spec. split; [|by eauto].
      by intros (s & [= <-] & Hc).
    + split; [by intros (s & [=] & _) | done].
  - destruct (facultyCode inst) as [code|].
    + rewrite includes_spec. split; [|by eauto].
      by intros (s & [= <-] & Hc).
    + split; [by intros (s & [=] & _) | done].
Qed.

Global Instance matchesLowerCased_dec (search : string) (inst : FacultyCodeWithId) :
  Decision (matchesLowerCased search inst).
Proof.
  refine (cast_if (decide (matchesSearch (JS.toLowerCase search) inst = true)));
    abstract (by rewrite matchesLowerCased_matchesSearch).
Defined.

(** C2, as amended: on a search string that [trim] does not reduce to
    the empty string, [filterInstitutions] returns exactly the records, in
    order, whose name or code, put in lower case by [toLowerCase], contains
    the lower-cased search string; on a search string that is empty or
    that [trim] reduces to the empty string it returns its input.  The
    statement goes through [trim] and [toLowerCase] and does not rest on
    what they compute. *)
Theorem filterInstitutions_exact (institutionsList : list FacultyCodeWithId)
    (search : string) :
  filterInstitutions institutionsList search =
    if JS.truthy (JS.trim search)
    then filter (matchesLowerCased search) institutionsList
    else institutionsList.
Proof.
  unfold filterInstitutions.
  destruct (JS.truthy (JS.trim search)); simpl; [|done].
  apply filter_decide. intros inst. apply matchesLowerCased_matchesSearch.
Qed.

(** C2, as stated, fails: a search string of one space is contained in
    no field of the record, yet the record is returned. *)
Lemma filterInstitutions_whitespace_counterexample :
  ¬ recordMatches " " colegio
  ∧ filterInstitutions [colegio] " " = [colegio]
  ∧ filterInstitutions [colegio] " " ≠ filter (recordMatches " ") [colegio].
Proof.
  assert (Hno : ¬ recordMatches " " colegio).
  { rewrite recordMatches_matchesSearch. by vm_compute. }
  split; [done|]. split; [done|].
  rewrite filter_cons, decide_False by done. by vm_compute.
Qed.

(** ** Sort *)

Section ArraySortFacts.
Context {A : Type} (compareFn : A → A → Z).

Lemma insertSorted_Permutation (x : A) (l : list A) :
  insertSorted compareFn x l ≡ₚ x :: l.
Proof.
  induction l as [|y l IH]; simpl; [done|].
  destruct (compareFn x y <=? 0); [done|].
  rewrite IH. apply perm_swap.
Qed.

Lemma Array_sort_Permutation (l : list A) : Array_sort compareFn l ≡ₚ l.
Proof.
  induction l as [|x l IH]; simpl; [done|].
  rewrite insertSorted_Permutation. by f_equiv.
Qed.

Lemma insertSorted_sorted (x : A) (l : list A) :
  consistent compareFn →
  StronglySorted (λ a b, compareFn a b ≤ 0) l →
  StronglySorted (λ a b, compareFn a b ≤ 0) (insertSorted compareFn x l).
Proof.
  intros [Htot Htrans]. induction 1 as [|y l Hl IH Hy]; simpl.
  - repeat constructor.
  - destruct (Z.leb_spec (compareFn x y) 0) as [Hle|Hgt].
    + constructor; [by constructor|]. constructor; [done|].
      eapply Forall_impl; [exact Hy|]. intros z Hz. by eapply Htrans.
    + constructor; [done|]. rewrite insertSorted_Permutation.
      constructor; [by apply Htot | done].
Qed.

Lemma Array_sort_sorted (l : list A) :
  consistent compareFn →
  StronglySorted (λ a b, compareFn a b ≤ 0) (Array_sort compareFn l).
Proof.
  intros Hc. induction l as [|x l IH]; simpl; [constructor|].
  by apply insertSorted_sorted.
Qed.
End ArraySortFacts.

(** C6: under each of the four options the result of [sortInstitutions]
    is ordered by [localeCompare] on the option's field (name or code, a
    missing value read as the empty string), ascending or, with the
    arguments swapped, descending: every record stands before all the
    records that follow it.  [localeCompare] is assumed consistent. *)
Theorem sortInstitutions_ordered (localeCompare : string → string → Z)
    (o : SortOption) (institutionsList : list FacultyCodeWithId) :
  consistent localeCompare →
  StronglySorted (inOrder localeCompare o)
    (sortInstitutions localeCompare institutionsList (optionName o)).
Proof.
  intros [Htot Htrans]. unfold sortInstitutions.
  destruct o; simpl;
    (eapply (Array_sort_sorted _ institutionsList); split;
     [intros a b; apply Htot | intros a b c ? ?; eapply Htrans; eassumption]).
Qed.

Lemma codeUnitCompare_le (s t : string) :
  codeUnitCompare s t ≤ 0 ↔ String.le s t.
Proof.
  unfold codeUnitCompare, String.le, String.leb.
  destruct (String.compare s t); simpl; split; (done || lia).
Qed.

Lemma codeUnitCompare_consistent : consistent codeUnitCompare.
Proof.
  split.
  - intros a b Hgt. apply codeUnitCompare_le.
    destruct (total String.le a b) as [Hab|Hba]; [|done].
    apply codeUnitCompare_le in Hab. lia.
  - intros a b c. rewrite !codeUnitCompare_le. apply transitivity.
Qed.

Lemma sortInstitutions_ordered_witness :
  consistent codeUnitCompare
  ∧ sortInstitutions codeUnitCompare [liceo; colegio; unnamed; rioclaro]
      "reverse-alphabetical" = [liceo; rioclaro; colegio; unnamed]
  ∧ StronglySorted (inOrder codeUnitCompare reverse_alphabetical)
      (sortInstitutions codeUnitCompare [liceo; colegio; unnamed; rioclaro]
         (optionName reverse_alphabetical)).
Proof.
  split; [exact codeUnitCompare_consistent|]. split; [reflexivity|].
  apply (sortInstitutions_ordered codeUnitCompare reverse_alphabetical
           [liceo; colegio; unnamed; rioclaro] codeUnitCompare_consistent).
Defined.

(** [spread] allocates a cell that was not in use. *)
Lemma spread_fresh (h : Heap) (xs : positive) (l : list FacultyCodeWithId) :
  h !! xs = Some l →
  ∃ r, spread h xs = Some (r, <[r := l]> h) ∧ h !! r = None.
Proof.
  intros Hxs. unfold spread. rewrite Hxs. simpl.
  exists (fresh (dom h)). split; [done|].
  apply not_elem_of_dom, is_fresh.
Qed.

Lemma sortInstitutions_Permutation (localeCompare : string → string → Z)
    (institutionsList : list FacultyCodeWithId) (sortOption : string) :
  sortInstitutions localeCompare institutionsList sortOption ≡ₚ institutionsList.
Proof.
  unfold sortInstitutions.
  destruct (comparatorOf localeCompare sortOption); [|done].
  apply Array_sort_Permutation.
Qed.

(** C10: for every input array and every sort option, one of the four or
    any other string, [sortInstitutions] returns a new array that holds a
    permutation of the input's records, the result the content-level
    function computes; the input array and all other arrays are left as
    they were. *)
Theorem sortInstitutions_permutes_copy (localeCompare : string → string → Z)
    (h : Heap) (institutionsList : positive) (l : list FacultyCodeWithId)
    (sortOption : string) :
  h !! institutionsList = Some l →
  ∃ sorted h',
    sortInstitutions_ref localeCompare h institutionsList sortOption
      = Some (sorted, h')
    ∧ h !! sorted = None
    ∧ h' !! institutionsList = Some l
    ∧ (∀ p, p ≠ sorted → h' !! p = h !! p)
    ∧ h' !! sorted = Some (sortInstitutions localeCompare l sortOption)
    ∧ sortInstitutions localeCompare l sortOption ≡ₚ l.
Proof.
  intros Hxs. destruct (spread_fresh h _ l Hxs) as (r & Hsp & Hr).
  unfold sortInstitutions_ref, sortInstitutions. rewrite Hsp. simpl.
  pose proof (sortInstitutions_Permutation localeCompare l sortOption) as Hp.
  unfold sortInstitutions in Hp.
  assert (r ≠ institutionsList) as Hne by congruence.
  destruct (comparatorOf localeCompare sortOption) as [compareFn|].
  - exists r, (alter (Array_sort compareFn) r (<[r := l]> h)).
    unfold sortInPlace. repeat split; try done.
    + by rewrite lookup_alter_ne, lookup_insert_ne.
    + intros p Hp'. by rewrite lookup_alter_ne, lookup_insert_ne.
    + by rewrite lookup_alter_eq, lookup_insert_eq.
  - exists r, (<[r := l]> h). repeat split; try done.
    + by rewrite lookup_insert_ne.
    + intros p Hp'. by rewrite lookup_insert_ne.
    + by rewrite lookup_insert_eq.
Qed.

Lemma sortInstitutions_permutes_copy_witness :
  ∃ sorted h',
    sortInstitutions_ref codeUnitCompare {[ 1%positive := [liceo; colegio] ]}
      1%positive "unknown-option" = Some (sorted, h')
    ∧ ({[ 1%positive := [liceo; colegio] ]} : Heap) !! sorted = None
    ∧ h' !! 1%positive = Some [liceo; colegio]
    ∧ (∀ p, p ≠ sorted →
         h' !! p = ({[ 1%positive := [liceo; colegio] ]} : Heap) !! p)
    ∧ h' !! sorted
        = Some (sortInstitutions codeUnitCompare [liceo; colegio] "unknown-option")
    ∧ sortInstitutions codeUnitCompare [liceo; colegio] "unknown-option"
        ≡ₚ [liceo; colegio].
Proof.
  apply (sortInstitutions_permutes_copy codeUnitCompare
           {[ 1%positive := [liceo; colegio] ]} 1%positive [liceo; colegio]
           "unknown-option").
  reflexivity.
Defined.

(** ** Code uniqueness *)

Lemma codeIs_true (inst : FacultyCodeWithId) (code : string) :
  codeIs inst code = true ↔ facultyCode inst = Some code.
Proof.
  unfold codeIs. destruct (facultyCode inst) as [c|]; [|done].
  rewrite String.eqb_eq. split; congruence.
Qed.

Lemma idDiffers_false (instId : string) (excludeId : option string) :
  idDiffers instId excludeId = false ↔ excludeId = Some instId.
Proof.
  unfold idDiffers. destruct excludeId as [e|]; [|done].
  rewrite negb_false_iff, String.eqb_eq. split; congruence.
Qed.

(** [isCodeUnique] answers [true] exactly when every record that holds
    the code is the excluded one. *)
Lemma isCodeUnique_true (l : list FacultyCodeWithId) (code : string)
    (excludeId : option string) :
  isCodeUnique l code excludeId = true ↔
  ∀ inst, inst ∈ l → facultyCode inst = Some code → excludeId = Some (id inst).
Proof.
  unfold isCodeUnique. rewrite negb_true_iff. split.
  - intros Hex inst Hin Hcode. apply idDiffers_false.
    destruct (idDiffers (id inst) excludeId) eqn:Hd; [|done].
    assert (existsb (λ inst, codeIs inst code && idDiffers (id inst) excludeId) l
            = true) as Ht; [|congruence].
    apply existsb_exists. exists inst. split; [by apply list_elem_of_In|].
    apply andb_true_iff. split; [by apply codeIs_true | done].
  - intros Hall. apply not_true_is_false. intros Hex.
    apply existsb_exists in Hex as (inst & Hin & Hp).
    apply andb_true_iff in Hp as [Hc Hd]. apply codeIs_true in Hc.
    apply list_elem_of_In in Hin. specialize (Hall inst Hin Hc).
    apply idDiffers_false in Hall. congruence.
Qed.

Lemma isCodeUnique_None (l : list FacultyCodeWithId) (code : string) :
  isCodeUnique l code None = true ↔
  ∀ inst, inst ∈ l → facultyCode inst ≠ Some code.
Proof.
  rewrite isCodeUnique_true. split.
  - intros H inst Hin Hc. by specialize (H inst Hin Hc).
  - intros H inst Hin Hc. by destruct (H inst Hin).
Qed.

(** ** Code regeneration *)

Lemma regenerate_unique (fuel : nat) (gen : nat → string)
    (l : list FacultyCodeWithId) (n : nat) (newCode code : string) (n' : nat) :
  regenerate fuel gen l n newCode = Some (code, n') →
  isCodeUnique l code None = true.
Proof.
  revert n newCode. induction fuel as [|fuel IH]; intros n newCode; simpl;
    destruct (isCodeUnique l newCode None) eqn:Hu; try congruence.
  apply IH.
Qed.

(** If one of the next [k] codes, or the current one, is unique, [k]
    regenerations or more are enough. *)
Lemma regenerate_terminates (gen : nat → string) (l : list FacultyCodeWithId)
    (k : nat) :
  ∀ n newCode fuel,
    (isCodeUnique l newCode None = true
     ∨ ∃ j, (j < k)%nat ∧ isCodeUnique l (gen (n + j)%nat) None = true) →
    (k ≤ fuel)%nat →
    is_Some (regenerate fuel gen l n newCode).
Proof.
  induction k as [|k IH]; intros n newCode fuel Hex Hfuel.
  - destruct Hex as [Hu | (j & Hj & _)]; [|lia].
    destruct fuel; simpl; by rewrite Hu.
  - destruct fuel as [|fuel]; [lia|]. simpl.
    destruct (isCodeUnique l newCode None) eqn:Hu; [done|].
    apply IH; [|lia]. destruct Hex as [? | (j & Hj & Hgen)]; [congruence|].
    destruct j as [|j].
    + left. by rewrite Nat.add_0_r in Hgen.
    + right. exists j. split; [lia|]. by rewrite Nat.add_succ_comm.
Qed.

Lemma regenerate_mono (gen : nat → string) (l : list FacultyCodeWithId)
    (fuel fuel' : nat) :
  (fuel ≤ fuel')%nat →
  ∀ n newCode r,
    regenerate fuel gen l n newCode = Some r →
    regenerate fuel' gen l n newCode = Some r.
Proof.
  revert fuel'. induction fuel as [|fuel IH]; intros fuel' Hle n newCode r;
    simpl; destruct (isCodeUnique l newCode None) eqn:Hu; try done.
  - intros <-. destruct fuel'; simpl; by rewrite Hu.
  - intros <-. destruct fuel'; simpl; by rewrite Hu.
  - destruct fuel' as [|fuel']; [lia|]. simpl. rewrite Hu. apply IH. lia.
Qed.

(** Whatever the generator does, a code that [handleGenerateNewCode]
    stores is one that [isCodeUnique] accepts. *)
Lemma handleGenerateNewCode_sound (fuel : nat) (gen : nat → string) (n : nat)
    (st st' : State) (n' : nat) :
  handleGenerateNewCode fuel gen n st = Some (st', n') →
  isCodeUnique (institutions st) (form_facultyCode (formData st')) None = true
  ∧ institutions st' = institutions st
  ∧ form_institution (formData st') = form_institution (formData st).
Proof.
  intros Hrun. unfold handleGenerateNewCode in Hrun.
  destruct (regenerate fuel gen (institutions st) (S n) (gen n))
    as [[code m]|] eqn:Hreg; simpl in Hrun; [|done].
  injection Hrun as <- <-. simpl.
  by apply regenerate_unique in Hreg.
Qed.

Lemma handleGenerateNewCode_mono (gen : nat → string) (n : nat) (st : State)
    (fuel fuel' : nat) (r : State * nat) :
  (fuel ≤ fuel')%nat →
  handleGenerateNewCode fuel gen n st = Some r →
  handleGenerateNewCode fuel' gen n st = Some r.
Proof.
  intros Hle. unfold handleGenerateNewCode.
  destruct (regenerate fuel gen (institutions st) (S n) (gen n)) as [r0|] eqn:Hreg;
    [|done].
  by rewrite (regenerate_mono _ _ _ _ Hle _ _ _ Hreg).
Qed.

(** C3: assume that the generator, from the current call on, produces
    within [k] further calls a code that no record holds.  Then the loop
    of [handleGenerateNewCode] ends: given [k] regenerations or more the
    handler returns, always the same state; the code it stores in the
    form passes [isCodeUnique] and is the code of no record of the current
    list; the list and the form's name are left as they were. *)
Theorem handleGenerateNewCode_unique (gen : nat → string) (n k : nat) (st : State) :
  isCodeUnique (institutions st) (gen (n + k)%nat) None = true →
  ∃ st' n',
    (∀ fuel, (k ≤ fuel)%nat → handleGenerateNewCode fuel gen n st = Some (st', n'))
    ∧ (∀ fuel r, handleGenerateNewCode fuel gen n st = Some r → r = (st', n'))
    ∧ isCodeUnique (institutions st) (form_facultyCode (formData st')) None = true
    ∧ (∀ inst, inst ∈ institutions st →
         facultyCode inst ≠ Some (form_facultyCode (formData st')))
    ∧ institutions st' = institutions st
    ∧ form_institution (formData st') = form_institution (formData st).
Proof.
  intros Hk.
  assert (is_Some (handleGenerateNewCode k gen n st)) as [[st' n'] Hrun].
  { unfold handleGenerateNewCode.
    destruct (regenerate_terminates gen (institutions st) k (S n) (gen n) k)
      as [[code m] Hreg]; [|done|by rewrite Hreg].
    destruct k as [|k].
    + left. by rewrite Nat.add_0_r in Hk.
    + right. exists k. split; [lia|]. by rewrite Nat.add_succ_comm. }
  exists st', n'.
  destruct (handleGenerateNewCode_sound _ _ _ _ _ _ Hrun) as (Hu & Hl & Hf).
  split; [|split; [|split; [done|split; [|done]]]].
  - intros fuel Hfuel. by eapply handleGenerateNewCode_mono.
  - intros fuel r Hr.
    pose proof (handleGenerateNewCode_mono gen n st fuel (Nat.max fuel k) r
                  (Nat.le_max_l _ _) Hr) as H1.
    pose proof (handleGenerateNewCode_mono gen n st k (Nat.max fuel k) _
                  (Nat.le_max_r _ _) Hrun) as H2.
    congruence.
  - by apply isCodeUnique_None.
Qed.

Lemma handleGenerateNewCode_unique_witness :
  ∃ st' n',
    (∀ fuel, (1 ≤ fuel)%nat →
       handleGenerateNewCode fuel collidingGen 0 (stateOf [colegio] (formOf "Liceo" ""))
         = Some (st', n'))
    ∧ (∀ fuel r,
         handleGenerateNewCode fuel collidingGen 0 (stateOf [colegio] (formOf "Liceo" ""))
           = Some r → r = (st', n'))
    ∧ isCodeUnique [colegio] (form_facultyCode (formData st')) None = true
    ∧ (∀ inst, inst ∈ [colegio] →
         facultyCode inst ≠ Some (form_facultyCode (formData st')))
    ∧ institutions st' = [colegio]
    ∧ form_institution (formData st') = "Liceo".
Proof.
  apply (handleGenerateNewCode_unique collidingGen 0 1
           (stateOf [colegio] (formOf "Liceo" ""))).
  reflexivity.
Defined.

Example handleGenerateNewCode_retries :
  handleGenerateNewCode 0 collidingGen 0 (stateOf [colegio] (formOf "Liceo" "")) = None
  ∧ handleGenerateNewCode 1 collidingGen 0 (stateOf [colegio] (formOf "Liceo" ""))
    = Some (stateOf [colegio] (formOf "Liceo" "NEW001"), 2%nat).
Proof. split; reflexivity. Qed.

(** ** Add *)

Lemma codeWellFormed_guard (form : FormData) :
  codeWellFormed form →
  negb (JS.truthy (JS.trim (form_facultyCode form)))
  || negb (JS.length (form_facultyCode form) =? 6)%nat = false.
Proof. intros [-> ->]. reflexivity. Qed.

(** C5: when the form passes validation and the store's add succeeds
    with identifier [docId], [handleAddInstitution] sends to the store,
    and appends to the local list under [docId], the record whose name is
    the trimmed form name and whose code is the upper-cased form code. *)
Theorem handleAddInstitution_appends (fs : Firestore) (st : State) (docId : string) :
  namePresent (formData st) →
  codeWellFormed (formData st) →
  isCodeUnique (institutions st) (form_facultyCode (formData st)) None = true →
  fs_add fs collection
    {| doc_institution := JS.trim (form_institution (formData st));
       doc_facultyCode := JS.toUpperCase (form_facultyCode (formData st)) |}
    = Some docId →
  (handleAddInstitution fs st).2 =
    [Add collection
       {| doc_institution := JS.trim (form_institution (formData st));
          doc_facultyCode := JS.toUpperCase (form_facultyCode (formData st)) |};
     ConsoleLog (Created docId)]
  ∧ institutions (handleAddInstitution fs st).1 =
      (institutions st ++
       [{| id := docId;
           institution := Some (JS.trim (form_institution (formData st)));
           facultyCode := Some (JS.toUpperCase (form_facultyCode (formData st))) |}])%list.
Proof.
  intros Hname Hcode Huniq Hadd. unfold handleAddInstitution.
  rewrite Hname, (codeWellFormed_guard _ Hcode), Huniq. simpl.
  by rewrite Hadd.
Qed.

Lemma handleAddInstitution_appends_witness :
  (handleAddInstitution (acceptingStore "doc7")
     (stateOf [colegio] (formOf "  Colegio Rioclaro " "abc123"))).2 =
    [Add collection
       {| doc_institution := "Colegio Rioclaro"; doc_facultyCode := "ABC123" |};
     ConsoleLog (Created "doc7")]
  ∧ institutions (handleAddInstitution (acceptingStore "doc7")
       (stateOf [colegio] (formOf "  Colegio Rioclaro " "abc123"))).1 =
      [colegio;
       {| id := "doc7"; institution := Some "Colegio Rioclaro";
          facultyCode := Some "ABC123" |}].
Proof.
  apply (handleAddInstitution_appends (acceptingStore "doc7")
           (stateOf [colegio] (formOf "  Colegio Rioclaro " "abc123")) "doc7");
    repeat split; reflexivity.
Defined.

(** C4, as amended: a form code that is the code of a record of the list
    never reaches the store and never changes the list; when the form's
    name is present and its code well formed, the error set is the
    duplicate-code one. *)
Theorem handleAddInstitution_duplicate (fs : Firestore) (st : State)
    (inst : FacultyCodeWithId) :
  inst ∈ institutions st →
  facultyCode inst = Some (form_facultyCode (formData st)) →
  (handleAddInstitution fs st).2 = []
  ∧ institutions (handleAddInstitution fs st).1 = institutions st
  ∧ (namePresent (formData st) → codeWellFormed (formData st) →
     handleAddInstitution fs st = (setFormError msgCodeInUse st, [])).
Proof.
  intros Hin Hcode.
  assert (isCodeUnique (institutions st) (form_facultyCode (formData st)) None
          = false) as Hdup.
  { apply not_true_is_false. rewrite isCodeUnique_None. intros Hall.
    by apply (Hall inst). }
  unfold handleAddInstitution, namePresent.
  destruct (JS.truthy (JS.trim (form_institution (formData st)))); simpl.
  - destruct (negb (JS.truthy (JS.trim (form_facultyCode (formData st))))
              || negb (JS.length (form_facultyCode (formData st)) =? 6)%nat)
      eqn:Hguard; simpl.
    + repeat split. intros _ Hwf. by rewrite (codeWellFormed_guard _ Hwf) in Hguard.
    + rewrite Hdup. simpl. done.
  - repeat split. done.
Qed.

Lemma handleAddInstitution_duplicate_witness :
  (handleAddInstitution (acceptingStore "doc7")
     (stateOf [colegio] (formOf "Otro Colegio" "XY12AB"))).2 = []
  ∧ institutions (handleAddInstitution (acceptingStore "doc7")
       (stateOf [colegio] (formOf "Otro Colegio" "XY12AB"))).1 = [colegio]
  ∧ formError (handleAddInstitution (acceptingStore "doc7")
       (stateOf [colegio] (formOf "Otro Colegio" "XY12AB"))).1 = msgCodeInUse.
Proof.
  destruct (handleAddInstitution_duplicate (acceptingStore "doc7")
              (stateOf [colegio] (formOf "Otro Colegio" "XY12AB")) colegio)
    as (Heff & Hlist & Herr).
  - apply list_elem_of_here.
  - reflexivity.
  - split; [exact Heff|]. split; [exact Hlist|].
    rewrite Herr; [reflexivity | reflexivity | split; reflexivity].
Defined.

(** C4, as stated, fails: the form code is the code of a record, but the
    name is blank, and the error set is the name-required one. *)
Lemma handleAddInstitution_duplicate_counterexample :
  colegio ∈ institutions (stateOf [colegio] (formOf "" "XY12AB"))
  ∧ facultyCode colegio
      = Some (form_facultyCode (formData (stateOf [colegio] (formOf "" "XY12AB"))))
  ∧ formError (handleAddInstitution (acceptingStore "doc7")
       (stateOf [colegio] (formOf "" "XY12AB"))).1 = msgNameRequired
  ∧ formError (handleAddInstitution (acceptingStore "doc7")
       (stateOf [colegio] (formOf "" "XY12AB"))).1 ≠ msgCodeInUse.
Proof.
  split; [apply list_elem_of_here|]. split; [reflexivity|].
  split; [reflexivity|]. by vm_compute.
Qed.

(** ** Fetch *)

(** C8: when [getAll] rejects, [fetchInstitutions] issues that single
    call, logs the error on the console, empties the list and clears the
    loading flag; every other part of the state, the form error among
    them, is as before, and no alert is raised. *)
Theorem fetchInstitutions_failure (fs : Firestore) (st : State) :
  fs_getAll fs collection = None →
  fetchInstitutions fs st =
    (setIsLoading false (setInstitutions [] st),
     [GetAll collection; ConsoleError FetchFailed])
  ∧ institutions (fetchInstitutions fs st).1 = []
  ∧ formError (fetchInstitutions fs st).1 = formError st.
Proof.
  intros Hfail. unfold fetchInstitutions. rewrite Hfail. by repeat split.
Qed.

Lemma fetchInstitutions_failure_witness :
  fetchInstitutions failingStore (stateOf [colegio; liceo] emptyForm) =
    (stateOf [] emptyForm, [GetAll "facultyCodes"; ConsoleError FetchFailed])
  ∧ institutions (fetchInstitutions failingStore
                    (stateOf [colegio; liceo] emptyForm)).1 = []
  ∧ formError (fetchInstitutions failingStore
                 (stateOf [colegio; liceo] emptyForm)).1 = "".
Proof.
  apply (fetchInstitutions_failure failingStore (stateOf [colegio; liceo] emptyForm)).
  reflexivity.
Defined.

(** ** Delete *)

Lemma filterInstitutions_subset (l : list FacultyCodeWithId) (search : string)
    (inst : FacultyCodeWithId) :
  inst ∈ filterInstitutions l search → inst ∈ l.
Proof.
  unfold filterInstitutions.
  destruct (negb (JS.truthy (JS.trim search))); [done|].
  rewrite !list_elem_of_In, filter_In. tauto.
Qed.

(** Every record of the rendered list is a record of the list. *)
Lemma refreshView_subset (localeCompare : string → string → Z) (st : State)
    (inst : FacultyCodeWithId) :
  inst ∈ filteredInstitutions (refreshView localeCompare st) → inst ∈ institutions st.
Proof.
  unfold refreshView. simpl. rewrite sortInstitutions_Permutation.
  apply filterInstitutions_subset.
Qed.

(** C7, as amended: after a successful remote delete of the selected
    record, the list is the former list without the records that carry
    the selected id, in the same order and unchanged; the selected record
    is not in it, nor, once the view is recomputed, in the rendered list
    of any state that holds this list, whatever its search term and sort
    option. *)
Theorem handleDeleteInstitution_removes (fs : Firestore) (st : State)
    (selected : FacultyCodeWithId) :
  selectedInstitution st = Some selected →
  fs_delete fs collection (id selected) = true →
  institutions (handleDeleteInstitution fs st).1
    = filter (λ inst, id inst ≠ id selected) (institutions st)
  ∧ (∀ inst, inst ∈ institutions (handleDeleteInstitution fs st).1
       ↔ inst ∈ institutions st ∧ id inst ≠ id selected)
  ∧ (selected ∉ institutions (handleDeleteInstitution fs st).1)
  ∧ (∀ localeCompare st',
       institutions st' = institutions (handleDeleteInstitution fs st).1 →
       selected ∉ filteredInstitutions (refreshView localeCompare st')).
Proof.
  intros Hsel Hdel.
  assert (institutions (handleDeleteInstitution fs st).1
          = filter (λ inst, id inst ≠ id selected) (institutions st)) as Heq.
  { unfold handleDeleteInstitution. rewrite Hsel. simpl. rewrite Hdel. simpl.
    apply filter_decide. intros inst.
    rewrite negb_true_iff. split.
    - intros Hne. apply not_true_is_false. by rewrite String.eqb_eq.
    - intros Hne Hid. apply String.eqb_eq in Hid. congruence. }
  assert (∀ inst, inst ∈ institutions (handleDeleteInstitution fs st).1
            ↔ inst ∈ institutions st ∧ id inst ≠ id selected) as Hiff.
  { intros inst. rewrite Heq, list_elem_of_filter. tauto. }
  split; [done|]. split; [done|]. split.
  - rewrite Hiff. tauto.
  - intros localeCompare st' Hst' Hin. apply refreshView_subset in Hin.
    rewrite Hst', Hiff in Hin. tauto.
Qed.

Lemma handleDeleteInstitution_removes_witness :
  institutions (handleDeleteInstitution (acceptingStore "")
     (openDeleteModal colegio (stateOf [liceo; colegio; rioclaro] emptyForm))).1
    = [liceo; rioclaro]
  ∧ colegio ∉ filteredInstitutions (refreshView codeUnitCompare
      (handleDeleteInstitution (acceptingStore "")
         (openDeleteModal colegio (stateOf [liceo; colegio; rioclaro] emptyForm))).1).
Proof.
  destruct (handleDeleteInstitution_removes (acceptingStore "")
              (openDeleteModal colegio (stateOf [liceo; colegio; rioclaro] emptyForm))
              colegio) as (Heq & _ & _ & Hview); [reflexivity | reflexivity |].
  split; [reflexivity|]. by apply Hview.
Defined.

(** C7, as stated, fails: the state that a successful delete returns
    still holds the rows computed before it, and the render made from
    that state, before the view is recomputed, shows the deleted record. *)
Lemma handleDeleteInstitution_stale_row_counterexample :
  selectedInstitution
    (openDeleteModal colegio
       (refreshView codeUnitCompare (stateOf [liceo; colegio; rioclaro] emptyForm)))
    = Some colegio
  ∧ (handleDeleteInstitution (acceptingStore "")
       (openDeleteModal colegio
          (refreshView codeUnitCompare
             (stateOf [liceo; colegio; rioclaro] emptyForm)))).2
    = [Delete "facultyCodes" "doc0"; ConsoleLog (Deleted (Some "Colegio"))]
  ∧ institutions
      (handleDeleteInstitution (acceptingStore "")
         (openDeleteModal colegio
            (refreshView codeUnitCompare
               (stateOf [liceo; colegio; rioclaro] emptyForm)))).1
    = [liceo; rioclaro]
  ∧ renderBody
      (handleDeleteInstitution (acceptingStore "")
         (openDeleteModal colegio
            (refreshView codeUnitCompare
               (stateOf [liceo; colegio; rioclaro] emptyForm)))).1
    = ShowTable [colegio; rioclaro; liceo]
  ∧ colegio ∈ [colegio; rioclaro; liceo].
Proof.
  repeat split; try reflexivity. apply list_elem_of_here.
Qed.

(** ** Edit *)

(** C9, as amended: in a list where no record with another id holds the
    code of the edited record, editing that record with its code left
    unchanged passes the duplicate-code check and never ends with the
    duplicate-code error; and in any list the test of [isCodeUnique],
    given the record's own id, is false on the record itself. *)
Theorem handleEditInstitution_own_code (fs : Firestore) (st : State)
    (selected : FacultyCodeWithId) :
  selected ∈ institutions st →
  selectedInstitution st = Some selected →
  facultyCode selected = Some (form_facultyCode (formData st)) →
  (∀ inst, inst ∈ institutions st →
     facultyCode inst = facultyCode selected → id inst = id selected) →
  (∀ code, codeIs selected code && idDiffers (id selected) (Some (id selected))
           = false)
  ∧ isCodeUnique (institutions st) (form_facultyCode (formData st))
      (Some (id selected)) = true
  ∧ formError (handleEditInstitution fs st).1 ≠ msgCodeInUse.
Proof.
  intros _ Hsel Hcode Hothers.
  assert (isCodeUnique (institutions st) (form_facultyCode (formData st))
            (Some (id selected)) = true) as Huniq.
  { apply isCodeUnique_true. intros inst Hin Hc. f_equal. symmetry.
    apply Hothers; [done | congruence]. }
  split; [|split; [done|]].
  - intros code. apply andb_false_iff. right. by apply idDiffers_false.
  - unfold handleEditInstitution. rewrite Hsel, Huniq.
    destruct (negb (JS.truthy (JS.trim (form_institution (formData st)))));
      [by vm_compute|].
    destruct (negb (JS.truthy (JS.trim (form_facultyCode (formData st))))
              || negb (JS.length (form_facultyCode (formData st)) =? 6)%nat);
      [by vm_compute|].
    simpl. destruct (fs_update fs collection _ _); by vm_compute.
Qed.

Lemma handleEditInstitution_own_code_witness :
  isCodeUnique [liceo; rioclaro] "ABC123" (Some "doc1") = true
  ∧ formError (handleEditInstitution (acceptingStore "")
      (stateOf' [liceo; rioclaro] rioclaro (formOf "Colegio Rioclaro" "ABC123"))).1
    ≠ msgCodeInUse.
Proof.
  destruct (handleEditInstitution_own_code (acceptingStore "")
              (stateOf' [liceo; rioclaro] rioclaro (formOf "Colegio Rioclaro" "ABC123"))
              rioclaro) as (_ & Hu & He).
  - apply list_elem_of_further, list_elem_of_here.
  - reflexivity.
  - reflexivity.
  - intros inst Hin Hc. apply elem_of_cons in Hin as [-> | Hin];
      [discriminate Hc|]. apply elem_of_cons in Hin as [-> | Hin];
      [reflexivity | by apply not_elem_of_nil in Hin].
  - split; [exact Hu | exact He].
Defined.

(** C9, as stated, fails: [rioclaro] is edited with its code unchanged,
    in a list where [twin] holds the same code, and the edit ends with
    the duplicate-code error. *)
Lemma handleEditInstitution_own_code_counterexample :
  ∃ st,
    openEditModal rioclaro (stateOf [rioclaro; twin] emptyForm) = Some st
    ∧ rioclaro ∈ institutions st
    ∧ facultyCode rioclaro = Some (form_facultyCode (formData st))
    ∧ handleEditInstitution (acceptingStore "") st
      = (setFormError msgCodeInUse st, []).
Proof.
  eexists. split; [reflexivity|]. split; [apply list_elem_of_here|].
  split; reflexivity.
Qed.

(** ** Uniqueness of codes across add and edit *)

(** C1 does not hold of the code: the uniqueness check reads the form
    code as typed, the record is stored with the upper-cased code.  Adding
    "abc123" next to a record that holds "ABC123" passes validation, is
    written to the store and leaves two records with the code "ABC123";
    so does saving, unchanged, the record that holds "abc123" next to one
    that holds "ABC123". *)
Theorem uniqueCodes_lost_on_case :
  (uniqueCodes [rioclaro]
   ∧ handleAddInstitution (acceptingStore "doc8")
       (stateOf [rioclaro] (formOf "Segundo Colegio" "abc123"))
     = (stateOf [rioclaro;
                 {| id := "doc8"; institution := Some "Segundo Colegio";
                    facultyCode := Some "ABC123" |}] emptyForm,
        [Add "facultyCodes"
           {| doc_institution := "Segundo Colegio"; doc_facultyCode := "ABC123" |};
         ConsoleLog (Created "doc8")])
   ∧ ¬ uniqueCodes
         (institutions (handleAddInstitution (acceptingStore "doc8")
            (stateOf [rioclaro] (formOf "Segundo Colegio" "abc123"))).1))
  ∧ (uniqueCodes [sur; rioclaro]
     ∧ uniqueIds [sur; rioclaro]
     ∧ ∃ st,
         openEditModal sur (stateOf [sur; rioclaro] emptyForm) = Some st
         ∧ (handleEditInstitution (acceptingStore "") st).2
           = [Update "facultyCodes" "doc5"
                {| doc_institution := "Colegio Sur"; doc_facultyCode := "ABC123" |};
              ConsoleLog (Updated (Some "Colegio Sur"))]
         ∧ institutions (handleEditInstitution (acceptingStore "") st).1
           = [{| id := "doc5"; institution := Some "Colegio Sur";
                 facultyCode := Some "ABC123" |}; rioclaro]
         ∧ ¬ uniqueCodes (institutions (handleEditInstitution (acceptingStore "") st).1)).
Proof.
  assert (∀ a b : FacultyCodeWithId,
            facultyCode a = facultyCode b → ¬ uniqueCodes [a; b]) as Hdup.
  { intros a b Hab Hnd. unfold uniqueCodes in Hnd. simpl in Hnd.
    apply NoDup_cons in Hnd as [Hnin _]. apply Hnin. rewrite Hab.
    apply list_elem_of_here. }
  split.
  - split; [by apply (bool_decide_unpack _)|].
    split; [reflexivity|]. by apply Hdup.
  - split; [by apply (bool_decide_unpack _)|].
    split; [by apply (bool_decide_unpack _)|].
    eexists. split; [reflexivity|]. split; [reflexivity|].
    split; [reflexivity|]. by apply Hdup.
Qed.

(** What the check does secure: when the form code is already in upper
    case, add and edit keep the codes of the list distinct. *)
Lemma handleAddInstitution_keeps_uniqueCodes (fs : Firestore) (st : State) :
  uniqueCodes (institutions st) →
  JS.toUpperCase (form_facultyCode (formData st)) = form_facultyCode (formData st) →
  uniqueCodes (institutions (handleAddInstitution fs st).1).
Proof.
  intros Hnd Hup. unfold handleAddInstitution.
  destruct (negb (JS.truthy (JS.trim (form_institution (formData st))))); [done|].
  destruct (negb (JS.truthy (JS.trim (form_facultyCode (formData st))))
            || negb (JS.length (form_facultyCode (formData st)) =? 6)%nat); [done|].
  destruct (isCodeUnique (institutions st) (form_facultyCode (formData st)) None)
    eqn:Huniq; simpl; [|done].
  destruct (fs_add fs collection _) as [docId|]; simpl; [|done].
  unfold uniqueCodes. rewrite fmap_app. simpl. rewrite Hup.
  apply NoDup_app. split; [done|]. split; [|apply NoDup_singleton].
  intros c Hc Hc'. apply list_elem_of_singleton in Hc'. subst c.
  apply list_elem_of_fmap in Hc as (inst & Hcode & Hin).
  rewrite isCodeUnique_None in Huniq. by apply (Huniq inst).
Qed.

Lemma patch_keeps_uniqueCodes (l : list FacultyCodeWithId) (selectedId : string)
    (d : Doc) :
  uniqueCodes l → uniqueIds l →
  isCodeUnique l (doc_facultyCode d) (Some selectedId) = true →
  uniqueCodes
    (List.map (λ inst, if String.eqb (id inst) selectedId then patch inst d else inst) l).
Proof.
  unfold uniqueCodes, uniqueIds. rewrite isCodeUnique_true.
  induction l as [|x l IH]; simpl; [done|].
  rewrite !NoDup_cons. intros [Hcx Hcl] [Hix Hil] Huniq.
  assert (∀ inst, inst ∈ l → facultyCode inst = Some (doc_facultyCode d) →
            Some selectedId = Some (id inst)) as Huniq'.
  { intros inst Hin. apply Huniq. by apply list_elem_of_further. }
  split; [|by apply IH].
  rewrite list_elem_of_fmap. intros (y' & Hy' & Hin).
  apply list_elem_of_In, in_map_iff in Hin as (y & <- & Hin).
  apply list_elem_of_In in Hin.
  assert (id y ≠ id x) as Hxy.
  { intros Heq. apply Hix. rewrite <- Heq. apply list_elem_of_fmap. eauto. }
  destruct (String.eqb_spec (id x) selectedId) as [Hx|Hx];
    destruct (String.eqb_spec (id y) selectedId) as [Hy|Hy]; simpl in Hy'.
  - congruence.
  - specialize (Huniq' y Hin). rewrite <- Hy' in Huniq'.
    specialize (Huniq' eq_refl). congruence.
  - specialize (Huniq x (list_elem_of_here _ _) Hy'). congruence.
  - apply Hcx. rewrite Hy'. apply list_elem_of_fmap. eauto.
Qed.

Lemma handleEditInstitution_keeps_uniqueCodes (fs : Firestore) (st : State) :
  uniqueCodes (institutions st) → uniqueIds (institutions st) →
  JS.toUpperCase (form_facultyCode (formData st)) = form_facultyCode (formData st) →
  uniqueCodes (institutions (handleEditInstitution fs st).1).
Proof.
  intros Hnd Hids Hup. unfold handleEditInstitution.
  destruct (selectedInstitution st) as [selected|]; [|done].
  destruct (negb (JS.truthy (JS.trim (form_institution (formData st))))); [done|].
  destruct (negb (JS.truthy (JS.trim (form_facultyCode (formData st))))
            || negb (JS.length (form_facultyCode (formData st)) =? 6)%nat); [done|].
  destruct (isCodeUnique (institutions st) (form_facultyCode (formData st))
              (Some (id selected))) eqn:Huniq; simpl; [|done].
  destruct (fs_update fs collection _ _); simpl; [|done].
  apply patch_keeps_uniqueCodes; [done | done |]. simpl. by rewrite Hup.
Qed.


(** * Further properties *)

(** ** Filter: order and repetition *)

Lemma List_filter_self_sublist {A} (f : A → bool) (l : list A) :
  List.filter f l `sublist_of` l.
Proof.
  induction l as [|x l IH]; simpl; [done|].
  destruct (f x); [by apply sublist_skip | by apply sublist_cons].
Qed.

Lemma List_filter_idemp {A} (f : A → bool) (l : list A) :
  List.filter f (List.filter f l) = List.filter f l.
Proof.
  induction l as [|x l IH]; simpl; [done|].
  destruct (f x) eqn:Hf; simpl; rewrite ?Hf; by rewrite IH.
Qed.

(** The filter keeps the records it returns in the order and number the
    list has them, and filtering its result again by the same search
    string changes nothing. *)
Theorem filterInstitutions_sublist_idempotent (l : list FacultyCodeWithId)
    (search : string) :
  filterInstitutions l search `sublist_of` l
  ∧ filterInstitutions (filterInstitutions l search) search
    = filterInstitutions l search.
Proof.
  unfold filterInstitutions.
  destruct (negb (JS.truthy (JS.trim search))) eqn:Hw; rewrite ?Hw; [done|].
  split; [apply List_filter_self_sublist | apply List_filter_idemp].
Qed.

Lemma upperUnit_idemp (c : ascii) :
  JS.upperUnit (JS.upperUnit c) = JS.upperUnit c.
Proof. by destruct c as [[] [] [] [] [] [] [] []]. Qed.

Lemma toUpperCase_idemp (s : string) :
  JS.toUpperCase (JS.toUpperCase s) = JS.toUpperCase s.
Proof.
  unfold JS.toUpperCase. induction s as [|c s IH]; simpl; [done|].
  by rewrite upperUnit_idemp, IH.
Qed.

(** ** Sort: repetition, ties, reversal *)

Section ArraySortMore.
Context {A : Type} (compareFn : A → A → Z).

Lemma Array_sort_fixes_sorted (l : list A) :
  Sorted (λ a b, compareFn a b ≤ 0) l → Array_sort compareFn l = l.
Proof.
  induction 1 as [|x l Hl IH Hx]; simpl; [done|].
  fold (Array_sort compareFn l). rewrite IH.
  destruct Hx as [|y l' Hxy]; simpl; [done|].
  by destruct (Z.leb_spec (compareFn x y) 0); [|lia].
Qed.

Lemma insertSorted_tied (x y : A) (l : list A) :
  consistent compareFn →
  List.filter (tied compareFn x) (insertSorted compareFn y l)
  = List.filter (tied compareFn x) (y :: l).
Proof.
  intros [Htot Htrans]. induction l as [|z l IH]; [done|].
  cbn [insertSorted]. destruct (Z.leb_spec (compareFn y z) 0) as [Hle|Hgt]; [done|].
  cbn [List.filter] in *. rewrite IH.
  destruct (tied compareFn x y) eqn:Hy; [|done].
  destruct (tied compareFn x z) eqn:Hz; [|done].
  exfalso. unfold tied in Hy, Hz.
  apply andb_true_iff in Hy as [_ Hyx%Z.leb_le].
  apply andb_true_iff in Hz as [Hxz%Z.leb_le _].
  pose proof (Htrans _ _ _ Hyx Hxz). lia.
Qed.

Lemma Array_sort_tied (x : A) (l : list A) :
  consistent compareFn →
  List.filter (tied compareFn x) (Array_sort compareFn l)
  = List.filter (tied compareFn x) l.
Proof.
  intros Hc. induction l as [|y l IH]; [done|].
  cbn [Array_sort foldr]. fold (Array_sort compareFn l).
  rewrite insertSorted_tied by done. cbn [List.filter]. by rewrite IH.
Qed.
End ArraySortMore.

Lemma comparatorOf_consistent (localeCompare : string → string → Z)
    (sortOption : string) (compareFn : FacultyCodeWithId → FacultyCodeWithId → Z) :
  consistent localeCompare →
  comparatorOf localeCompare sortOption = Some compareFn →
  consistent compareFn.
Proof.
  intros [Htot Htrans]. unfold comparatorOf.
  repeat case_match; intros [= <-]; (split;
    [intros a b; apply Htot | intros a b c ? ?; eapply Htrans; eassumption]).
Qed.

(** Sorting a list that is already sorted by the same option gives it
    back: sorting twice is sorting once. *)
Theorem sortInstitutions_idempotent (localeCompare : string → string → Z)
    (l : list FacultyCodeWithId) (sortOption : string) :
  consistent localeCompare →
  sortInstitutions localeCompare
    (sortInstitutions localeCompare l sortOption) sortOption
  = sortInstitutions localeCompare l sortOption.
Proof.
  intros Hc. unfold sortInstitutions.
  destruct (comparatorOf localeCompare sortOption) as [compareFn|] eqn:Hcmp;
    [|done].
  apply Array_sort_fixes_sorted, StronglySorted_Sorted, Array_sort_sorted.
  by eapply comparatorOf_consistent.
Qed.

Lemma sortInstitutions_idempotent_witness :
  sortInstitutions codeUnitCompare
    (sortInstitutions codeUnitCompare [liceo; colegio; unnamed; rioclaro] "code-asc")
    "code-asc"
  = sortInstitutions codeUnitCompare [liceo; colegio; unnamed; rioclaro] "code-asc".
Proof.
  apply (sortInstitutions_idempotent codeUnitCompare
           [liceo; colegio; unnamed; rioclaro] "code-asc").
  exact codeUnitCompare_consistent.
Defined.

(** The sort is stable: under each of the four options, the records
    whose keys tie with the key of a given record come out in the order
    the input has them. *)
Theorem sortInstitutions_stable (localeCompare : string → string → Z)
    (o : SortOption) (l : list FacultyCodeWithId) (x : FacultyCodeWithId) :
  consistent localeCompare →
  List.filter (tied (λ a b, localeCompare (sortKey o a) (sortKey o b)) x)
    (sortInstitutions localeCompare l (optionName o))
  = List.filter (tied (λ a b, localeCompare (sortKey o a) (sortKey o b)) x) l.
Proof.
  intros Hc. unfold sortInstitutions.
  destruct (comparatorOf localeCompare (optionName o)) as [compareFn|] eqn:Hcmp;
    [|done].
  pose proof (comparatorOf_consistent _ _ _ Hc Hcmp) as Hc'.
  assert (∀ y, tied (λ a b, localeCompare (sortKey o a) (sortKey o b)) x y
               = tied compareFn x y) as Htied.
  { intros y. destruct o; injection Hcmp as <-;
      unfold tied, byInstitution, byFacultyCode, JS.orEmpty; simpl;
      try done; apply andb_comm. }
  rewrite !(filter_ext _ _ Htied). by apply Array_sort_tied.
Qed.

Lemma sortInstitutions_stable_witness :
  sortInstitutions codeUnitCompare [liceo; rioclaroB; colegio; rioclaro]
    "alphabetical" = [colegio; rioclaroB; rioclaro; liceo]
  ∧ List.filter
      (tied (λ a b, codeUnitCompare (sortKey alphabetical a) (sortKey alphabetical b))
         rioclaro)
      (sortInstitutions codeUnitCompare [liceo; rioclaroB; colegio; rioclaro]
         (optionName alphabetical))
    = [rioclaroB; rioclaro].
Proof.
  split; [reflexivity|].
  rewrite (sortInstitutions_stable codeUnitCompare alphabetical
             [liceo; rioclaroB; colegio; rioclaro] rioclaro
             codeUnitCompare_consistent).
  reflexivity.
Defined.

Lemma Array_sort_reverse {A : Type} (compareFn : A → A → Z) (l : list A) :
  consistent compareFn →
  (∀ a b, a ∈ l → b ∈ l → compareFn a b ≤ 0 → compareFn b a ≤ 0 → a = b) →
  Array_sort (λ a b, compareFn b a) l = reverse (Array_sort compareFn l).
Proof.
  intros [Htot Htrans] Hdistinct.
  assert (consistent (λ a b, compareFn b a)) as Hflip.
  { split; [intros a b; apply Htot | intros a b c ? ?; by eapply Htrans]. }
  apply (StronglySorted_unique_strong (λ a b, compareFn b a ≤ 0)).
  - intros a b Ha Hb Hab Hba. apply Hdistinct; [| |done..].
    + by rewrite Array_sort_Permutation in Ha.
    + by rewrite reverse_Permutation, Array_sort_Permutation in Hb.
  - by apply (Array_sort_sorted (λ a b, compareFn b a)).
  - assert (Transitive (λ a b : A, compareFn b a ≤ 0)) as Htr.
    { intros a b c ? ?. by eapply Htrans. }
    apply Sorted_StronglySorted; [done|].
    apply (Sorted_reverse (λ a b, compareFn a b ≤ 0)).
    by apply StronglySorted_Sorted, Array_sort_sorted.
  - by rewrite reverse_Permutation, !Array_sort_Permutation.
Qed.

(** When no two different records of the list have names that tie, the
    Z-A order is the A-Z order read backwards; and likewise for the two
    code orders when no two different records have codes that tie. *)
Theorem sortInstitutions_reverse (localeCompare : string → string → Z)
    (l : list FacultyCodeWithId) :
  consistent localeCompare →
  ((∀ a b, a ∈ l → b ∈ l → byInstitution localeCompare a b ≤ 0 →
      byInstitution localeCompare b a ≤ 0 → a = b) →
   sortInstitutions localeCompare l "reverse-alphabetical"
   = reverse (sortInstitutions localeCompare l "alphabetical"))
  ∧ ((∀ a b, a ∈ l → b ∈ l → byFacultyCode localeCompare a b ≤ 0 →
        byFacultyCode localeCompare b a ≤ 0 → a = b) →
     sortInstitutions localeCompare l "code-desc"
     = reverse (sortInstitutions localeCompare l "code-asc")).
Proof.
  intros [Htot Htrans].
  split; intros Hdistinct; unfold sortInstitutions; simpl;
    apply (Array_sort_reverse _ l); try done;
    (split; [intros a b; apply Htot | intros a b c ? ?; by eapply Htrans]).
Qed.

Lemma sortInstitutions_reverse_witness :
  sortInstitutions codeUnitCompare [liceo; colegio; rioclaro] "code-desc"
  = reverse (sortInstitutions codeUnitCompare [liceo; colegio; rioclaro] "code-asc").
Proof.
  apply (sortInstitutions_reverse codeUnitCompare [liceo; colegio; rioclaro]
           codeUnitCompare_consistent).
  intros a b Ha Hb.
  repeat (apply elem_of_cons in Ha as [-> | Ha]);
    repeat (apply elem_of_cons in Hb as [-> | Hb]);
    try (by apply elem_of_nil in Ha); try (by apply elem_of_nil in Hb);
    try done; by vm_compute.
Defined.

(** ** The rendered list *)

Lemma filterInstitutions_sublist (l : list FacultyCodeWithId) (search : string) :
  filterInstitutions l search `sublist_of` l.
Proof.
  unfold filterInstitutions.
  destruct (negb (JS.truthy (JS.trim search))); [done|].
  apply List_filter_self_sublist.
Qed.

(** After the view is recomputed, the rows are a permutation of what
    the filter returns on the list and the search term: every row is a
    record of the list, the rows are never more than the total the header
    reports, all records are shown when [trim] reduces the search term to
    the empty string, and the list itself is untouched. *)
Theorem refreshView_rows (localeCompare : string → string → Z) (st : State) :
  filteredInstitutions (refreshView localeCompare st)
    ≡ₚ filterInstitutions (institutions st) (searchTerm st)
  ∧ (∀ inst, inst ∈ filteredInstitutions (refreshView localeCompare st) →
       inst ∈ institutions st)
  ∧ (List.length (filteredInstitutions (refreshView localeCompare st))
     ≤ shownTotal (refreshView localeCompare st))%nat
  ∧ (JS.truthy (JS.trim (searchTerm st)) = false →
     filteredInstitutions (refreshView localeCompare st) ≡ₚ institutions st)
  ∧ institutions (refreshView localeCompare st) = institutions st.
Proof.
  assert (filteredInstitutions (refreshView localeCompare st)
            ≡ₚ filterInstitutions (institutions st) (searchTerm st)) as Hperm.
  { unfold refreshView. simpl. apply sortInstitutions_Permutation. }
  split; [done|]. split; [|split; [|split; [|done]]].
  - intros inst. rewrite Hperm. apply filterInstitutions_subset.
  - rewrite Hperm. unfold shownTotal. simpl.
    apply sublist_length, filterInstitutions_sublist.
  - intros Hblank. rewrite Hperm. unfold filterInstitutions. by rewrite Hblank.
Qed.

(** Once loading is over and the view is recomputed, the body is never
    the loader; a table has at least one row; an empty-table message
    appears only when the filter returns no record: "no institutions
    registered" when [trim] reduces the search term to the empty string,
    and then the list itself is empty; "none found for that term"
    otherwise. *)
Theorem renderBody_truthful (localeCompare : string → string → Z) (st : State) :
  isLoading st = false →
  match renderBody (refreshView localeCompare st) with
  | ShowLoader => False
  | ShowTable rows =>
      rows ≠ []
      ∧ rows ≡ₚ filterInstitutions (institutions st) (searchTerm st)
  | ShowEmpty msg =>
      filterInstitutions (institutions st) (searchTerm st) = []
      ∧ ((msg = msgNoRecords
          ∧ JS.truthy (JS.trim (searchTerm st)) = false
          ∧ institutions st = [])
         ∨ (msg = msgNoMatch
            ∧ JS.truthy (JS.trim (searchTerm st)) = true))
  end.
Proof.
  intros Hload. unfold renderBody.
  assert (isLoading (refreshView localeCompare st) = false) as -> by done.
  assert (searchTerm (refreshView localeCompare st) = searchTerm st) as -> by done.
  pose proof (sortInstitutions_Permutation localeCompare
                (filterInstitutions (institutions st) (searchTerm st))
                (sortOption st)) as Hperm.
  change (filteredInstitutions (refreshView localeCompare st))
    with (sortInstitutions localeCompare
            (filterInstitutions (institutions st) (searchTerm st)) (sortOption st)).
  destruct (sortInstitutions localeCompare _ _) as [|row rows] eqn:Hrows;
    cbn [List.length Nat.ltb Nat.leb].
  - apply Permutation_nil in Hperm. split; [done|].
    destruct (JS.truthy (JS.trim (searchTerm st))) eqn:Hw.
    + by right.
    + left. split; [done|]. split; [done|].
      unfold filterInstitutions in Hperm. by rewrite Hw in Hperm.
  - done.
Qed.

Lemma renderBody_truthful_witness :
  renderBody (refreshView codeUnitCompare
                (setSearchTerm "zzz" (stateOf [colegio; liceo] emptyForm)))
  = ShowEmpty msgNoMatch
  ∧ filterInstitutions [colegio; liceo] "zzz" = [].
Proof.
  split; [reflexivity|].
  pose proof (renderBody_truthful codeUnitCompare
                (setSearchTerm "zzz" (stateOf [colegio; liceo] emptyForm))
                eq_refl) as H.
  exact (proj1 H).
Defined.

(** ** Code uniqueness and deletion *)

Lemma isCodeUnique_exclude (l : list FacultyCodeWithId) (code excludeId : string) :
  isCodeUnique l code (Some excludeId)
  = isCodeUnique
      (List.filter (λ inst, negb (String.eqb (id inst) excludeId)) l) code None.
Proof.
  unfold isCodeUnique. f_equal.
  induction l as [|x l IH]; [done|].
  cbn [existsb List.filter]. rewrite IH. unfold idDiffers at 1.
  destruct (String.eqb (id x) excludeId) eqn:Hx; cbn [negb existsb].
  - by rewrite andb_false_r.
  - done.
Qed.

(** Deleting a record frees its code, and any code, exactly as far as
    editing that record would have allowed it: after a successful delete,
    [isCodeUnique] accepts a code for a new record if and only if, before,
    it accepted the code with the deleted record's id excluded. *)
Theorem handleDeleteInstitution_frees_code (fs : Firestore) (st : State)
    (selected : FacultyCodeWithId) (code : string) :
  selectedInstitution st = Some selected →
  fs_delete fs collection (id selected) = true →
  isCodeUnique (institutions (handleDeleteInstitution fs st).1) code None
  = isCodeUnique (institutions st) code (Some (id selected)).
Proof.
  intros Hsel Hdel. unfold handleDeleteInstitution.
  rewrite Hsel. simpl. rewrite Hdel. simpl.
  symmetry. apply isCodeUnique_exclude.
Qed.

Lemma handleDeleteInstitution_frees_code_witness :
  isCodeUnique [colegio; rioclaro] "ABC123" None = false
  ∧ isCodeUnique
      (institutions (handleDeleteInstitution (acceptingStore "")
         (openDeleteModal rioclaro (stateOf [colegio; rioclaro] emptyForm))).1)
      "ABC123" None = true.
Proof.
  split; [reflexivity|].
  rewrite (handleDeleteInstitution_frees_code (acceptingStore "")
             (openDeleteModal rioclaro (stateOf [colegio; rioclaro] emptyForm))
             rioclaro "ABC123" eq_refl eq_refl).
  reflexivity.
Defined.

(** ** Code regeneration: which code is stored *)

Lemma regenerate_first (gen : nat → string) (l : list FacultyCodeWithId)
    (fuel : nat) :
  ∀ m code m',
    regenerate fuel gen l (S m) (gen m) = Some (code, m') →
    ∃ j, (j ≤ fuel)%nat ∧ m' = S (m + j) ∧ code = gen (m + j)%nat
         ∧ ∀ i, (i < j)%nat → isCodeUnique l (gen (m + i)%nat) None = false.
Proof.
  induction fuel as [|fuel IH]; intros m code m'; simpl;
    destruct (isCodeUnique l (gen m) None) eqn:Hu; try done.
  - intros [= <- <-]. exists 0%nat. rewrite Nat.add_0_r.
    repeat split; [lia|]. intros i Hi. lia.
  - intros [= <- <-]. exists 0%nat. rewrite Nat.add_0_r.
    repeat split; [lia|]. intros i Hi. lia.
  - intros Hreg. destruct (IH _ _ _ Hreg) as (j & Hj & -> & -> & Hbefore).
    exists (S j). rewrite <- !Nat.add_succ_comm.
    repeat split; [lia|]. intros [|i] Hi.
    + by rewrite Nat.add_0_r.
    + rewrite <- Nat.add_succ_comm. apply Hbefore. lia.
Qed.

(** [handleGenerateNewCode] stores the first code of the generator's
    sequence that no record holds: every code generated before it was in
    use, and the generator was called once more than there were
    collisions. *)
Theorem handleGenerateNewCode_first_unique (fuel : nat) (gen : nat → string)
    (n : nat) (st st' : State) (n' : nat) :
  handleGenerateNewCode fuel gen n st = Some (st', n') →
  ∃ j, (j ≤ fuel)%nat
       ∧ n' = (n + j + 1)%nat
       ∧ form_facultyCode (formData st') = gen (n + j)%nat
       ∧ isCodeUnique (institutions st) (gen (n + j)%nat) None = true
       ∧ ∀ i, (i < j)%nat →
           isCodeUnique (institutions st) (gen (n + i)%nat) None = false.
Proof.
  intros Hrun. unfold handleGenerateNewCode in Hrun.
  destruct (regenerate fuel gen (institutions st) (S n) (gen n))
    as [[code m]|] eqn:Hreg; simpl in Hrun; [|done].
  injection Hrun as <- <-. simpl.
  pose proof (regenerate_unique _ _ _ _ _ _ _ Hreg) as Hu.
  destruct (regenerate_first _ _ _ _ _ _ Hreg) as (j & Hj & -> & -> & Hbefore).
  exists j. repeat split; [done | lia | done | done].
Qed.

Lemma handleGenerateNewCode_first_unique_witness :
  ∃ j, (j ≤ 3)%nat
       ∧ 2%nat = (0 + j + 1)%nat
       ∧ "NEW001" = collidingGen (0 + j)%nat
       ∧ isCodeUnique [colegio] (collidingGen (0 + j)%nat) None = true
       ∧ ∀ i, (i < j)%nat →
           isCodeUnique [colegio] (collidingGen (0 + i)%nat) None = false.
Proof.
  apply (handleGenerateNewCode_first_unique 3 collidingGen 0
           (stateOf [colegio] (formOf "Liceo" ""))
           (stateOf [colegio] (formOf "Liceo" "NEW001")) 2).
  reflexivity.
Defined.

(** ** Add and edit: when the store is reached *)

Lemma validationMessages_elem (msg : string) :
  msg = msgNameRequired ∨ msg = msgCodeLength ∨ msg = msgCodeInUse →
  msg ∈ validationMessages.
Proof.
  unfold validationMessages. rewrite !elem_of_cons. tauto.
Qed.

(** [handleAddInstitution] reaches the store exactly when the three
    checks pass, and then with one add call, of the trimmed name and the
    upper-cased code, followed by the console call of the outcome: the
    log of the new id, or the error; a form that does not pass has no
    effect and changes nothing but the error message, which is one of the
    three validation messages. *)
Theorem handleAddInstitution_writes_iff_valid (fs : Firestore) (st : State) :
  if formValid st None then
    (handleAddInstitution fs st).2 =
      [Add collection (docOfForm st);
       match fs_add fs collection (docOfForm st) with
       | Some docId => ConsoleLog (Created docId)
       | None => ConsoleError CreateFailed
       end]
  else
    (handleAddInstitution fs st).2 = []
    ∧ ∃ msg, msg ∈ validationMessages
             ∧ (handleAddInstitution fs st).1 = setFormError msg st.
Proof.
  unfold formValid, handleAddInstitution, docOfForm.
  destruct (JS.truthy (JS.trim (form_institution (formData st)))); simpl;
    [|split; [done|]; eexists; split; [|done]; apply validationMessages_elem; auto].
  destruct (JS.truthy (JS.trim (form_facultyCode (formData st)))); simpl;
    [|split; [done|]; eexists; split; [|done]; apply validationMessages_elem; auto].
  destruct (JS.length (form_facultyCode (formData st)) =? 6)%nat; simpl;
    [|split; [done|]; eexists; split; [|done]; apply validationMessages_elem; auto].
  destruct (isCodeUnique (institutions st) (form_facultyCode (formData st)) None);
    simpl;
    [|split; [done|]; eexists; split; [|done]; apply validationMessages_elem; auto].
  by destruct (fs_add fs collection _).
Qed.

(** [handleEditInstitution] does nothing without a selected record;
    with one, it reaches the store exactly when the three checks pass, the
    selected record's id being excluded from the uniqueness check, and
    then with one update of that id, of the trimmed name and the
    upper-cased code, followed by the console call of the outcome: the
    log of the record's former name, or the error; a form that does not
    pass has no effect and changes nothing but the error message. *)
Theorem handleEditInstitution_writes_iff_valid (fs : Firestore) (st : State) :
  match selectedInstitution st with
  | None => handleEditInstitution fs st = (st, [])
  | Some selected =>
      if formValid st (Some (id selected)) then
        (handleEditInstitution fs st).2 =
          [Update collection (id selected) (docOfForm st);
           if fs_update fs collection (id selected) (docOfForm st)
           then ConsoleLog (Updated (institution selected))
           else ConsoleError UpdateFailed]
      else
        (handleEditInstitution fs st).2 = []
        ∧ ∃ msg, msg ∈ validationMessages
                 ∧ (handleEditInstitution fs st).1 = setFormError msg st
  end.
Proof.
  unfold formValid, handleEditInstitution, docOfForm.
  destruct (selectedInstitution st) as [selected|]; [|done].
  destruct (JS.truthy (JS.trim (form_institution (formData st)))); simpl;
    [|split; [done|]; eexists; split; [|done]; apply validationMessages_elem; auto].
  destruct (JS.truthy (JS.trim (form_facultyCode (formData st)))); simpl;
    [|split; [done|]; eexists; split; [|done]; apply validationMessages_elem; auto].
  destruct (JS.length (form_facultyCode (formData st)) =? 6)%nat; simpl;
    [|split; [done|]; eexists; split; [|done]; apply validationMessages_elem; auto].
  destruct (isCodeUnique (institutions st) (form_facultyCode (formData st))
              (Some (id selected))); simpl;
    [|split; [done|]; eexists; split; [|done]; apply validationMessages_elem; auto].
  by destruct (fs_update fs collection _ _).
Qed.

Lemma formValid_guards (st : State) (excludeId : option string) :
  formValid st excludeId = true →
  negb (JS.truthy (JS.trim (form_institution (formData st)))) = false
  ∧ negb (JS.truthy (JS.trim (form_facultyCode (formData st))))
    || negb (JS.length (form_facultyCode (formData st)) =? 6)%nat = false
  ∧ negb (isCodeUnique (institutions st) (form_facultyCode (formData st)) excludeId)
    = false.
Proof.
  unfold formValid. rewrite !andb_true_iff. intros [[-> [-> ->]] ->]. done.
Qed.

(** ** Remote failures *)

(** When the store rejects the add of a valid form, the list, the form
    and the open modal are as before; the creation error is shown and the
    saving flag is down. *)
Theorem handleAddInstitution_remote_failure (fs : Firestore) (st : State) :
  formValid st None = true →
  fs_add fs collection (docOfForm st) = None →
  handleAddInstitution fs st =
    (setIsSaving false (setFormError msgCreateFailed st),
     [Add collection (docOfForm st); ConsoleError CreateFailed]).
Proof.
  intros (Hn & Hc & Hu)%formValid_guards Hadd. unfold handleAddInstitution.
  rewrite Hn, Hc, Hu. unfold docOfForm in Hadd. simpl. by rewrite Hadd.
Qed.

Lemma handleAddInstitution_remote_failure_witness :
  handleAddInstitution failingStore (stateOf [colegio] (formOf "Liceo" "QRS789")) =
    (setFormError msgCreateFailed (stateOf [colegio] (formOf "Liceo" "QRS789")),
     [Add "facultyCodes" {| doc_institution := "Liceo"; doc_facultyCode := "QRS789" |};
      ConsoleError CreateFailed]).
Proof.
  apply (handleAddInstitution_remote_failure failingStore
           (stateOf [colegio] (formOf "Liceo" "QRS789"))); reflexivity.
Defined.

(** When the store rejects the update of a valid form, the list, the
    selection, the form and the open modal are as before; the update
    error is shown and the saving flag is down. *)
Theorem handleEditInstitution_remote_failure (fs : Firestore) (st : State)
    (selected : FacultyCodeWithId) :
  selectedInstitution st = Some selected →
  formValid st (Some (id selected)) = true →
  fs_update fs collection (id selected) (docOfForm st) = false →
  handleEditInstitution fs st =
    (setIsSaving false (setFormError msgUpdateFailed st),
     [Update collection (id selected) (docOfForm st); ConsoleError UpdateFailed]).
Proof.
  intros Hsel (Hn & Hc & Hu)%formValid_guards Hupd. unfold handleEditInstitution.
  rewrite Hsel, Hn, Hc, Hu. unfold docOfForm in Hupd. simpl. by rewrite Hupd.
Qed.

Lemma handleEditInstitution_remote_failure_witness :
  handleEditInstitution failingStore
    (stateOf' [colegio; liceo] liceo (formOf "Liceo Nuevo" "QRS789")) =
    (setFormError msgUpdateFailed
       (stateOf' [colegio; liceo] liceo (formOf "Liceo Nuevo" "QRS789")),
     [Update "facultyCodes" "doc2"
        {| doc_institution := "Liceo Nuevo"; doc_facultyCode := "QRS789" |};
      ConsoleError UpdateFailed]).
Proof.
  apply (handleEditInstitution_remote_failure failingStore
           (stateOf' [colegio; liceo] liceo (formOf "Liceo Nuevo" "QRS789")) liceo);
    reflexivity.
Defined.

(** When the store rejects the delete, the record stays in the list, the
    confirmation modal stays open on it, an alert is raised and the
    deleting flag is down. *)
Theorem handleDeleteInstitution_remote_failure (fs : Firestore) (st : State)
    (selected : FacultyCodeWithId) :
  selectedInstitution st = Some selected →
  fs_delete fs collection (id selected) = false →
  handleDeleteInstitution fs st =
    (setIsDeleting false st,
     [Delete collection (id selected); ConsoleError DeleteFailed;
      Alert msgDeleteFailed])
  ∧ institutions (handleDeleteInstitution fs st).1 = institutions st
  ∧ showsDeleteModal (handleDeleteInstitution fs st).1 = showDeleteModal st.
Proof.
  intros Hsel Hdel. unfold handleDeleteInstitution, showsDeleteModal.
  rewrite Hsel, Hdel. simpl. rewrite Hsel.
  repeat split. by rewrite bool_decide_eq_true_2, andb_true_r.
Qed.

Lemma handleDeleteInstitution_remote_failure_witness :
  institutions (handleDeleteInstitution failingStore
     (openDeleteModal colegio (stateOf [colegio; liceo] emptyForm))).1
    = [colegio; liceo]
  ∧ showsDeleteModal (handleDeleteInstitution failingStore
       (openDeleteModal colegio (stateOf [colegio; liceo] emptyForm))).1 = true.
Proof.
  destruct (handleDeleteInstitution_remote_failure failingStore
              (openDeleteModal colegio (stateOf [colegio; liceo] emptyForm)) colegio
              eq_refl eq_refl) as (_ & Hl & Hm).
  split; [exact Hl | exact Hm].
Defined.

(** ** Edit: what a successful save changes *)

Lemma handleEditInstitution_success (fs : Firestore) (st : State)
    (selected : FacultyCodeWithId) :
  selectedInstitution st = Some selected →
  formValid st (Some (id selected)) = true →
  fs_update fs collection (id selected) (docOfForm st) = true →
  handleEditInstitution fs st =
    (setIsSaving false (setFormData emptyForm (setSelectedInstitution None
       (setShowEditModal false
          (setInstitutions
             (List.map (λ inst, if String.eqb (id inst) (id selected)
                                then patch inst (docOfForm st) else inst)
                (institutions st))
             (setFormError "" st))))),
     [Update collection (id selected) (docOfForm st);
      ConsoleLog (Updated (institution selected))]).
Proof.
  intros Hsel (Hn & Hc & Hu)%formValid_guards Hupd. unfold handleEditInstitution.
  rewrite Hsel, Hn, Hc, Hu. unfold docOfForm in Hupd. simpl. by rewrite Hupd.
Qed.

(** A successful edit rewrites the list position by position: a record
    with the selected id keeps its id and gets the trimmed name and the
    upper-cased code, every other record is as before; the modal closes,
    the selection and the form are reset. *)
Theorem handleEditInstitution_patches (fs : Firestore) (st : State)
    (selected : FacultyCodeWithId) :
  selectedInstitution st = Some selected →
  formValid st (Some (id selected)) = true →
  fs_update fs collection (id selected) (docOfForm st) = true →
  (∀ (i : nat) inst,
     institutions st !! i = Some inst →
     institutions (handleEditInstitution fs st).1 !! i =
       Some (if decide (id inst = id selected)
             then {| id := id inst;
                     institution := Some (JS.trim (form_institution (formData st)));
                     facultyCode :=
                       Some (JS.toUpperCase (form_facultyCode (formData st))) |}
             else inst))
  ∧ List.length (institutions (handleEditInstitution fs st).1)
    = List.length (institutions st)
  ∧ showsEditModal (handleEditInstitution fs st).1 = false
  ∧ selectedInstitution (handleEditInstitution fs st).1 = None
  ∧ formData (handleEditInstitution fs st).1 = emptyForm.
Proof.
  intros Hsel Hvalid Hupd.
  rewrite (handleEditInstitution_success fs st selected Hsel Hvalid Hupd). simpl.
  split; [|split; [by rewrite length_map|]].
  - intros i inst Hi. change (@List.map) with (@fmap list _).
    rewrite list_lookup_fmap, Hi. simpl. f_equal.
    destruct (String.eqb_spec (id inst) (id selected)); by case_decide.
  - unfold showsEditModal. simpl. done.
Qed.

Lemma handleEditInstitution_patches_witness :
  institutions (handleEditInstitution (acceptingStore "")
     (stateOf' [colegio; liceo] liceo (formOf " Liceo Nuevo " "new789"))).1
  = [colegio;
     {| id := "doc2"; institution := Some "Liceo Nuevo"; facultyCode := Some "NEW789" |}]
  ∧ showsEditModal (handleEditInstitution (acceptingStore "")
       (stateOf' [colegio; liceo] liceo (formOf " Liceo Nuevo " "new789"))).1 = false.
Proof.
  destruct (handleEditInstitution_patches (acceptingStore "")
              (stateOf' [colegio; liceo] liceo (formOf " Liceo Nuevo " "new789"))
              liceo eq_refl eq_refl eq_refl) as (_ & _ & Hm & _).
  split; [reflexivity | exact Hm].
Defined.

Lemma map_patch_ids (l : list FacultyCodeWithId) (selectedId : string) (d : Doc) :
  id <$> List.map (λ inst, if String.eqb (id inst) selectedId
                           then patch inst d else inst) l
  = id <$> l.
Proof.
  change (@List.map) with (@fmap list _). rewrite <- list_fmap_compose.
  apply list_fmap_ext. intros i x _. simpl.
  by destruct (String.eqb (id x) selectedId).
Qed.

(** Whatever the form, the selection and the store's answer, an edit
    leaves the ids of the list as they were, in the same order: it never
    adds, drops or moves a record. *)
Theorem handleEditInstitution_keeps_ids (fs : Firestore) (st : State) :
  id <$> institutions (handleEditInstitution fs st).1 = id <$> institutions st
  ∧ shownTotal (handleEditInstitution fs st).1 = shownTotal st.
Proof.
  assert (id <$> institutions (handleEditInstitution fs st).1
          = id <$> institutions st) as Hids.
  { unfold handleEditInstitution.
    destruct (selectedInstitution st) as [selected|]; [|done].
    repeat (case_match; simpl; try done). apply map_patch_ids. }
  split; [done|]. unfold shownTotal.
  by rewrite <- (length_fmap id), Hids, length_fmap.
Qed.

(** ** Delete: what it keeps *)

(** Whatever the selection and the store's answer, the list after a
    delete is a sublist of the list before: nothing is added, changed or
    moved; so records that had distinct codes, or distinct ids, still
    have. *)
Theorem handleDeleteInstitution_keeps_invariants (fs : Firestore) (st : State) :
  institutions (handleDeleteInstitution fs st).1 `sublist_of` institutions st
  ∧ (uniqueCodes (institutions st) →
     uniqueCodes (institutions (handleDeleteInstitution fs st).1))
  ∧ (uniqueIds (institutions st) →
     uniqueIds (institutions (handleDeleteInstitution fs st).1)).
Proof.
  assert (institutions (handleDeleteInstitution fs st).1
            `sublist_of` institutions st) as Hsub.
  { unfold handleDeleteInstitution.
    destruct (selectedInstitution st) as [selected|]; [|done].
    simpl. destruct (fs_delete fs collection (id selected)); simpl; [|done].
    apply List_filter_self_sublist. }
  split; [done|]. unfold uniqueCodes, uniqueIds.
  split; intros Hnd; (eapply sublist_NoDup; [exact Hnd|]); by apply fmap_sublist.
Qed.

(** ** Codes typed in the form *)

(** A code that went through the code input is stored as the check saw
    it: submitting it keeps the codes of the list distinct on add, and on
    edit when the ids of the list are distinct. *)
Theorem typed_code_keeps_uniqueCodes (fs : Firestore) (st : State) (value : string) :
  uniqueCodes (institutions st) →
  uniqueCodes (institutions (handleAddInstitution fs (onFacultyCodeInput value st)).1)
  ∧ (uniqueIds (institutions st) →
     uniqueCodes
       (institutions (handleEditInstitution fs (onFacultyCodeInput value st)).1)).
Proof.
  intros Hnd. split; [|intros Hids].
  - apply handleAddInstitution_keeps_uniqueCodes; [done|]. apply toUpperCase_idemp.
  - apply handleEditInstitution_keeps_uniqueCodes; [done | done |].
    apply toUpperCase_idemp.
Qed.

Lemma typed_code_keeps_uniqueCodes_witness :
  uniqueCodes
    (institutions (handleAddInstitution (acceptingStore "doc8")
       (onFacultyCodeInput "abc123" (stateOf [rioclaro] (formOf "Segundo" "")))).1)
  ∧ handleAddInstitution (acceptingStore "doc8")
      (onFacultyCodeInput "abc123" (stateOf [rioclaro] (formOf "Segundo" "")))
    = (setFormError msgCodeInUse
         (stateOf [rioclaro] (formOf "Segundo" "ABC123")), []).
Proof.
  split; [|reflexivity].
  assert (uniqueCodes (institutions (stateOf [rioclaro] (formOf "Segundo" ""))))
    as Hnd by (by apply (bool_decide_unpack _)).
  exact (proj1 (typed_code_keeps_uniqueCodes (acceptingStore "doc8")
                  (stateOf [rioclaro] (formOf "Segundo" "")) "abc123" Hnd)).
Defined.

(** ** Add: the stored code is taken *)

Lemma handleAddInstitution_success (fs : Firestore) (st : State) (docId : string) :
  formValid st None = true →
  fs_add fs collection (docOfForm st) = Some docId →
  handleAddInstitution fs st =
    (setIsSaving false (setFormData emptyForm (setShowAddModal false
       (setInstitutions (institutions st ++ [withId (docOfForm st) docId])
          (setFormError "" st)))),
     [Add collection (docOfForm st); ConsoleLog (Created docId)]).
Proof.
  intros (Hn & Hc & Hu)%formValid_guards Hadd. unfold handleAddInstitution.
  rewrite Hn, Hc, Hu. unfold docOfForm in Hadd. simpl. by rewrite Hadd.
Qed.

(** After a successful add, the code that was stored is taken: typing
    in the code input a value whose upper-case form is the stored code,
    with a name, is rejected with the duplicate-code error before any call
    to the store, whenever the form so typed passes the name and
    code-length checks. *)
Theorem handleAddInstitution_then_same_code (fs fs' : Firestore) (st : State)
    (docId name' value : string) :
  formValid st None = true →
  fs_add fs collection (docOfForm st) = Some docId →
  JS.toUpperCase value = JS.toUpperCase (form_facultyCode (formData st)) →
  namePresent
    (formData (onFacultyCodeInput value
                 (onInstitutionInput name' (handleAddInstitution fs st).1))) →
  codeWellFormed
    (formData (onFacultyCodeInput value
                 (onInstitutionInput name' (handleAddInstitution fs st).1))) →
  handleAddInstitution fs'
    (onFacultyCodeInput value
       (onInstitutionInput name' (handleAddInstitution fs st).1))
  = (setFormError msgCodeInUse
       (onFacultyCodeInput value
          (onInstitutionInput name' (handleAddInstitution fs st).1)), []).
Proof.
  intros Hvalid Hadd Hsame Hname Hcode.
  set (st2 := onFacultyCodeInput value
                (onInstitutionInput name' (handleAddInstitution fs st).1)) in *.
  assert (isCodeUnique (institutions st2) (form_facultyCode (formData st2)) None
          = false) as Hdup.
  { apply not_true_is_false. rewrite isCodeUnique_None. intros Hall.
    apply (Hall (withId (docOfForm st) docId)).
    - subst st2. rewrite (handleAddInstitution_success fs st docId Hvalid Hadd).
      simpl. apply elem_of_app. right. apply list_elem_of_here.
    - subst st2. simpl. by rewrite Hsame. }
  unfold handleAddInstitution. unfold namePresent in Hname.
  by rewrite Hname, (codeWellFormed_guard _ Hcode), Hdup.
Qed.

Lemma handleAddInstitution_then_same_code_witness :
  handleAddInstitution (acceptingStore "doc9")
    (onFacultyCodeInput "qrs789"
       (onInstitutionInput "Otro Liceo"
          (handleAddInstitution (acceptingStore "doc8")
             (stateOf [colegio] (formOf "Liceo" "QRS789"))).1))
  = (setFormError msgCodeInUse
       (stateOf [colegio;
                 {| id := "doc8"; institution := Some "Liceo";
                    facultyCode := Some "QRS789" |}]
          (formOf "Otro Liceo" "QRS789")), []).
Proof.
  apply (handleAddInstitution_then_same_code (acceptingStore "doc8")
           (acceptingStore "doc9") (stateOf [colegio] (formOf "Liceo" "QRS789"))
           "doc8" "Otro Liceo" "qrs789"); try reflexivity.
  split; reflexivity.
Defined.

(** ** Edit: saving an untouched form *)

(** Opening the edit modal on a record of the list and saving without
    touching the form leaves the list exactly as it was, provided the
    record is stored in normal form (trimmed name, upper-case code), the
    form it yields is valid, and the records that carry its id are all
    equal to it. *)
Theorem openEditModal_save_roundtrip (fs : Firestore) (st st1 : State)
    (inst : FacultyCodeWithId) (name code : string) :
  openEditModal inst st = Some st1 →
  institution inst = Some name →
  facultyCode inst = Some code →
  JS.trim name = name →
  JS.toUpperCase code = code →
  formValid st1 (Some (id inst)) = true →
  (∀ r, r ∈ institutions st → id r = id inst → r = inst) →
  fs_update fs collection (id inst) (docOfForm st1) = true →
  institutions (handleEditInstitution fs st1).1 = institutions st
  ∧ (handleEditInstitution fs st1).2
    = [Update collection (id inst)
         {| doc_institution := name; doc_facultyCode := code |};
       ConsoleLog (Updated (Some name))].
Proof.
  intros Hopen Hname Hcode Htrim Hupper Hvalid Hsame Hupd.
  unfold openEditModal in Hopen. rewrite Hname, Hcode in Hopen. simpl in Hopen.
  injection Hopen as <-.
  match type of Hvalid with
  | formValid ?s _ = _ =>
      rewrite (handleEditInstitution_success fs s inst eq_refl Hvalid Hupd)
  end.
  unfold docOfForm. simpl. rewrite Htrim, Hupper, Hname. split; [|done].
  rewrite <- (map_id (institutions st)) at 2.
  apply map_ext_in. intros r Hr%list_elem_of_In.
  destruct (String.eqb_spec (id r) (id inst)) as [Hid|]; [|done].
  rewrite (Hsame r Hr Hid). unfold patch. simpl.
  destruct inst as [i n c]. simpl in *. by subst.
Qed.

Lemma openEditModal_save_roundtrip_witness :
  ∃ st1,
    openEditModal liceo (stateOf [colegio; liceo] emptyForm) = Some st1
    ∧ institutions (handleEditInstitution (acceptingStore "") st1).1
      = [colegio; liceo].
Proof.
  eexists. split; [reflexivity|].
  refine (proj1 (openEditModal_save_roundtrip (acceptingStore "")
                   (stateOf [colegio; liceo] emptyForm) _ liceo
                   "Liceo Andino" "QRS789" eq_refl eq_refl eq_refl eq_refl eq_refl
                   eq_refl _ eq_refl)).
  intros r Hr Hid.
  apply elem_of_cons in Hr as [-> | Hr]; [discriminate Hid|].
  apply elem_of_cons in Hr as [-> | Hr]; [done | by apply elem_of_nil in Hr].
Defined.

(** ** Fetch *)

(** Whatever the store answers, [fetchInstitutions] makes one read and
    no write, ends with the loading flag down and replaces the list:
    by the records received, or by the empty list when the read fails. *)
Theorem fetchInstitutions_outcome (fs : Firestore) (st : State) :
  institutions (fetchInstitutions fs st).1 = default [] (fs_getAll fs collection)
  ∧ isLoading (fetchInstitutions fs st).1 = false
  ∧ (∃ e, (fetchInstitutions fs st).2 = [GetAll collection; e]
          ∧ (e = ConsoleLog (Loaded (List.length (institutions (fetchInstitutions fs st).1)))
             ∨ e = ConsoleError FetchFailed))
  ∧ List.filter isRemoteWrite (fetchInstitutions fs st).2 = [].
Proof.
  unfold fetchInstitutions.
  destruct (fs_getAll fs collection) as [data|]; simpl; repeat split; eauto.
Qed.

(** ** Busy flags and view settings *)

(** Every operation that reached the store ends with its busy flag
    down, and an operation that did not reach it leaves the flag as it
    was. *)
Theorem busy_flags_cleared (fs : Firestore) (st : State) :
  isSaving (handleAddInstitution fs st).1
    = (if decide ((handleAddInstitution fs st).2 = []) then isSaving st else false)
  ∧ isSaving (handleEditInstitution fs st).1
    = (if decide ((handleEditInstitution fs st).2 = []) then isSaving st else false)
  ∧ isDeleting (handleDeleteInstitution fs st).1
    = (if decide ((handleDeleteInstitution fs st).2 = []) then isDeleting st
       else false).
Proof.
  unfold handleAddInstitution, handleEditInstitution, handleDeleteInstitution.
  repeat split; repeat (case_match; simpl; try done).
Qed.

(** No operation on the records touches the search term, the sort
    option or the rows on screen: the rows change only when the view is
    recomputed. *)
Theorem handlers_keep_view_settings (fs : Firestore) (st : State) (st' : State) :
  st' ∈ [(fetchInstitutions fs st).1; (handleAddInstitution fs st).1;
         (handleEditInstitution fs st).1; (handleDeleteInstitution fs st).1] →
  searchTerm st' = searchTerm st
  ∧ sortOption st' = sortOption st
  ∧ filteredInstitutions st' = filteredInstitutions st.
Proof.
  rewrite !elem_of_cons, elem_of_nil.
  unfold fetchInstitutions, handleAddInstitution, handleEditInstitution,
    handleDeleteInstitution.
  intros [-> | [-> | [-> | [-> | []]]]]; repeat (case_match; simpl; try done).
Qed.

Lemma handlers_keep_view_settings_witness :
  searchTerm (handleDeleteInstitution (acceptingStore "")
    (openDeleteModal colegio (setSearchTerm "col" (stateOf [colegio] emptyForm)))).1
  = "col".
Proof.
  refine (proj1 (handlers_keep_view_settings (acceptingStore "")
     (openDeleteModal colegio (setSearchTerm "col" (stateOf [colegio] emptyForm)))
     _ _)).
  do 3 apply list_elem_of_further. apply list_elem_of_here.
Defined.

(** Changing the sort option changes the order of the rows only: the
    recomputed view holds the same records as before, each as often. *)
Theorem handleSortChange_same_records (localeCompare : string → string → Z)
    (sortOpt : string) (st : State) :
  filteredInstitutions (refreshView localeCompare (handleSortChange sortOpt st))
  ≡ₚ filteredInstitutions (refreshView localeCompare st).
Proof.
  unfold refreshView, handleSortChange. simpl.
  by rewrite !sortInstitutions_Permutation.
Qed.

(** A freshly opened add form cannot be submitted as it is: whatever
    code the generator gave, the name is empty, so the submit is rejected
    with the name-required error and the store is not called. *)
Theorem openAddModal_submit_rejected (fs : Firestore) (gen : nat → string)
    (n : nat) (st : State) :
  handleAddInstitution fs (openAddModal gen n st).1
  = (setFormError msgNameRequired (openAddModal gen n st).1, [])
  ∧ form_facultyCode (formData (openAddModal gen n st).1) = gen n
  ∧ (openAddModal gen n st).2 = S n.
Proof. done. Qed.
